(** * trader_monitor: settings validation and signal reconciliation

    A shallow embedding of the browser-side controllers of the trading
    monitor:

    - [SettingsManager] (static/js/settings.js): [collectFormData],
      [validateConfig], [saveSettings], [displaySystemStatus];
    - [TradingDashboard] (static/js/dashboard.js): [removeDuplicateSignals],
      [displaySignalsTable], [updateSignalsTable], [showSignalsError],
      [updateSystemStatus].

    JavaScript numbers are IEEE 754 binary64 values, so they are embedded as
    Rocq's primitive [float]; strings are [string] (UTF-8 bytes). *)

From Stdlib Require Import ZArith QArith Qround List String Ascii Bool Lia.
From Stdlib Require Import Floats DecimalString.
From Stdlib Require Import Sorting.Sorted Sorting.Permutation.
Import ListNotations.

Set Warnings "-inexact-float".

Local Open Scope string_scope.
Local Open Scope Z_scope.

(** ** JavaScript numbers *)

Module JS.

Definition number := float.

(** [a > b] and [a >= b] on numbers: both are false as soon as one operand is
    [NaN]. *)
Definition gt (a b : number) : bool := (b <? a)%float.
Definition ge (a b : number) : bool := (b <=? a)%float.

Definition Math_abs (x : number) : number := abs x.

(** The number whose value is the integer [z], with the sign [neg] when
    [z] is zero. *)
Definition of_Z (neg : bool) (z : Z) : number :=
  SF2Prim (binary_normalize prec emax z 0 neg).

(** [Math.round]: the closest integer, a tie going towards +infinity; a
    negative argument that rounds to zero gives [-0]. *)
Definition Math_round (x : number) : number :=
  match Prim2SF x with
  | S754_finite s m e =>
      if 0 <=? e then x
      else
        let den := 2 ^ (- e) in
        let n := if s then Z.neg m else Z.pos m in
        of_Z s ((2 * n + den) / (2 * den))
  | _ => x
  end.

(** *** Number to string *)

Definition decimal_of_Z (z : Z) : string :=
  NilZero.string_of_int (Z.to_int z).

Definition ndigits (z : Z) : Z := Z.of_nat (String.length (decimal_of_Z z)).

(** [10 ^ q] as a rational, for any integer [q]. *)
Definition pow10 (q : Z) : Q :=
  if 0 <=? q then inject_Z (10 ^ q) else (1 # Z.to_pos (10 ^ (- q)))%Q.

(** The [n] with [10 ^ (n - 1) <= v < 10 ^ n], for a positive rational [v]. *)
Fixpoint decimal_exponent_below (fuel : nat) (v : Q) (n : Z) : Z :=
  match fuel with
  | O => n
  | S fuel' =>
      if Qle_bool 1 v then n
      else decimal_exponent_below fuel' (v * 10)%Q (n - 1)
  end.

Definition decimal_exponent (v : Q) : Z :=
  if Qle_bool 1 v then ndigits (Qfloor v)
  else decimal_exponent_below 400 (v * 10)%Q 0.

(** The value of a finite number, and the interval of the reals that round
    to it (its ends count when the mantissa is even). *)
Definition value_of (m : positive) (e : Z) : Q :=
  (inject_Z (Z.pos m) * (if 0 <=? e then inject_Z (2 ^ e)
                         else 1 # Z.to_pos (2 ^ (- e))))%Q.

Definition rounds_to (m : positive) (e : Z) (d : Q) : bool :=
  let v := value_of m e in
  let up := (value_of 1 e / 2)%Q in
  let down :=
    if (Z.pos m =? 2 ^ 52) && (-1074 <? e) then (up / 2)%Q else up in
  let lo := (v - down)%Q in
  let hi := (v + up)%Q in
  if Z.even (Z.pos m) then Qle_bool lo d && Qle_bool d hi
  else negb (Qle_bool d lo) && negb (Qle_bool hi d).

(** The shortest digits: the least [k] for which some [s * 10 ^ (n - k)]
    rounds to the number, and among those the closest [s] (the even one on a
    tie).  The result is the pair of [s] and the exponent [n - k]. *)
Fixpoint shortest_from (ks : list Z) (m : positive) (e : Z) (n : Z)
  : Z * Z :=
  match ks with
  | [] => (Z.pos m * 2 ^ e, 0)
  | k :: ks' =>
      let v := value_of m e in
      let p := pow10 (n - k) in
      let s1 := Qfloor (v / p) in
      let s2 := s1 + 1 in
      let d1 := (inject_Z s1 * p)%Q in
      let d2 := (inject_Z s2 * p)%Q in
      let ok1 := (0 <? s1) && rounds_to m e d1 in
      let ok2 := rounds_to m e d2 in
      let pick1 := (s1, n - k) in
      let pick2 := (s2, n - k) in
      match ok1, ok2 with
      | true, false => pick1
      | false, true => pick2
      | true, true =>
          match ((v - d1) ?= (d2 - v))%Q with
          | Lt => pick1
          | Gt => pick2
          | Eq => if Z.even s1 then pick1 else pick2
          end
      | false, false => shortest_from ks' m e n
      end
  end.

Definition shortest (m : positive) (e : Z) : Z * Z :=
  shortest_from
    [1; 2; 3; 4; 5; 6; 7; 8; 9; 10; 11; 12; 13; 14; 15; 16; 17]
    m e (decimal_exponent (value_of m e)).

(** Trailing zeros of [s] move into the exponent. *)
Fixpoint strip_zeros (fuel : nat) (s q : Z) : Z * Z :=
  match fuel with
  | O => (s, q)
  | S fuel' =>
      if (s mod 10 =? 0) && negb (s =? 0)
      then strip_zeros fuel' (s / 10) (q + 1)
      else (s, q)
  end.

Fixpoint zeros (n : nat) : string :=
  match n with
  | O => EmptyString
  | S n' => "0" ++ zeros n'
  end.

Definition format_digits (s q : Z) : string :=
  let digits := decimal_of_Z s in
  let k := ndigits s in
  let n := k + q in
  if (k <=? n) && (n <=? 21) then digits ++ zeros (Z.to_nat (n - k))
  else if (0 <? n) && (n <=? 21) then
    substring 0 (Z.to_nat n) digits ++ "."
      ++ substring (Z.to_nat n) (Z.to_nat (k - n)) digits
  else if (-6 <? n) && (n <=? 0) then
    "0." ++ zeros (Z.to_nat (- n)) ++ digits
  else
    let e := n - 1 in
    let es := (if 0 <=? e then "+" else "-") ++ decimal_of_Z (Z.abs e) in
    if k =? 1 then digits ++ "e" ++ es
    else substring 0 1 digits ++ "."
           ++ substring 1 (Z.to_nat (k - 1)) digits ++ "e" ++ es.

(** [Number::toString], as used by template literals. *)
Definition Number_toString (x : number) : string :=
  match Prim2SF x with
  | S754_nan => "NaN"
  | S754_zero _ => "0"
  | S754_infinity false => "Infinity"
  | S754_infinity true => "-Infinity"
  | S754_finite neg m e =>
      let '(s, q) := shortest m e in
      let '(s', q') := strip_zeros 400 s q in
      (if neg then "-" else EmptyString) ++ format_digits s' q'
  end.

End JS.

(** ** Completions: a call returns a value or throws *)

Inductive Completion (A : Type) : Type :=
| Normal (a : A)
| Throw (error : string).
Arguments Normal {A} a.
Arguments Throw {A} error.

Definition bind {A B : Type} (c : Completion A) (k : A -> Completion B)
  : Completion B :=
  match c with
  | Normal a => k a
  | Throw e => Throw e
  end.

Notation "'let*' x ':=' c 'in' k" := (bind c (fun x => k))
  (at level 10, x name, c at level 100, k at level 200).

(** Reading a property of [undefined] throws a [TypeError]. *)
Definition property_of {A : Type} (object : option A) : Completion A :=
  match object with
  | Some o => Normal o
  | None => Throw "TypeError"
  end.

(** ** The configuration object *)

Import JS.

Record TaParams : Type := {
  rsi_period : number;
  rsi_overbought : number;
  rsi_oversold : number;
  sma_short : number;
  sma_long : number;
  ema_short : number;
  ema_long : number;
  stoch_overbought : number;
  stoch_oversold : number;
  min_volume_ratio : number;
  min_confidence : number;
  min_risk_reward : number
}.

Record SignalConfig : Type := {
  max_active_signals : number;
  signal_cooldown_minutes : number;
  stop_loss_atr_multiplier : number;
  target_multipliers : list number
}.

(** [indicator_weights] is an object used as a map from an indicator's name
    to its weight; [Object.values] lists the weights in insertion order. *)
Definition IndicatorWeights : Type := list (string * number).

Definition Object_values (weights : IndicatorWeights) : list number :=
  map snd weights.

Record Trading : Type := {
  ta_params : option TaParams;
  signal_config : option SignalConfig;
  indicator_weights : option IndicatorWeights
}.

Record BitcoinStreaming : Type := {
  fetch_interval : number;
  max_queue_size : number
}.

Record Streaming : Type := {
  bitcoin : option BitcoinStreaming
}.

Record SystemConfig : Type := {
  auto_start_stream : bool;
  require_volume_confirmation : bool;
  enable_auto_signals : bool;
  enable_advanced_patterns : bool;
  enable_notifications : bool;
  correlation_analysis : bool;
  auto_cleanup : bool;
  data_retention_days : number
}.

(** A configuration object: each section may be absent ([undefined]); the
    keys the server sends besides the three sections are kept with their
    JSON text. *)
Record Config : Type := {
  trading : option Trading;
  streaming : option Streaming;
  system : option SystemConfig;
  other_keys : list (string * string)
}.

Definition empty_config : Config :=
  {| trading := None; streaming := None; system := None; other_keys := [] |}.

(** ** SettingsManager.validateConfig *)

Record Validation : Type := {
  valid : bool;
  errors : list string
}.

Definition rsi_error : string :=
  "RSI oversold deve ser menor que overbought".
Definition sma_error : string :=
  "SMA curta deve ser menor que SMA longa".
Definition ema_error : string :=
  "EMA curta deve ser menor que EMA longa".

Definition totalWeight (weights : IndicatorWeights) : number :=
  fold_left (fun sum w => (sum + w)%float) (Object_values weights) 0%float.

(** The percentage shown in the weight-sum message. *)
Definition weight_percent (weights : IndicatorWeights) : string :=
  Number_toString (Math_round (totalWeight weights * 100)%float).

Definition weight_error (weights : IndicatorWeights) : string :=
  "Soma dos pesos deve ser 100% (atual: " ++ weight_percent weights ++ "%)".

(** [errors.push(message)] when [test] holds. *)
Definition push_if (test : bool) (message : string) (errors : list string)
  : list string :=
  if test then errors ++ [message] else errors.

Definition validateConfig (config : Config) : Completion Validation :=
  let* errors :=
    match trading config with
    | Some trading =>
        let* ta := property_of (ta_params trading) in
        let errors := [] in
        let errors :=
          push_if (ge (rsi_oversold ta) (rsi_overbought ta)) rsi_error errors in
        let errors :=
          push_if (ge (sma_short ta) (sma_long ta)) sma_error errors in
        let errors :=
          push_if (ge (ema_short ta) (ema_long ta)) ema_error errors in
        let* weights := property_of (indicator_weights trading) in
        let errors :=
          push_if (gt (Math_abs (totalWeight weights - 1.0)%float) 0.01%float)
                  (weight_error weights) errors in
        Normal errors
    | None => Normal []
    end in
  Normal {| valid := (List.length errors =? 0)%nat; errors := errors |}.

(** The list of errors of a configuration whose [trading] section and its
    two parts are there. *)
Definition trading_errors (ta : TaParams) (weights : IndicatorWeights)
  : list string :=
  push_if (gt (Math_abs (totalWeight weights - 1.0)%float) 0.01%float)
          (weight_error weights)
    (push_if (ge (ema_short ta) (ema_long ta)) ema_error
       (push_if (ge (sma_short ta) (sma_long ta)) sma_error
          (push_if (ge (rsi_oversold ta) (rsi_overbought ta)) rsi_error []))).

(** ** The settings page *)

(** The form controls, by element id: the [value] of a slider and the
    [checked] flag of a checkbox, [None] when the element is not in the
    document. *)
Record Form : Type := {
  slider_value : string -> option string;
  checkbox_checked : string -> option bool
}.

Record SettingsManager : Type := {
  currentConfig : Config;
  unsavedChanges : bool
}.

(** The page: the manager object and the form it reads. *)
Record Page : Type := {
  manager : SettingsManager;
  form : Form
}.

(** What the manager does to the outside world, in order.  The display
    helpers ([showToast], [updateSaveButton], [updateConfigPreview]) are
    recorded at the call; how they paint the document is not modelled. *)
Record SaveRequest : Type := {
  request_config : Config;
  apply_immediately : bool
}.

Inductive Effect : Type :=
| ConsoleLog (message : string)
| ConsoleError (message : string)
| ShowToast (message : string) (type : string)
| UpdateSaveButton (unsaved : bool)
| UpdateConfigPreview (shown : Config)
| Fetch (url : string) (method : string) (body : SaveRequest).

(** The server's answer to the POST, as [saveSettings] observes it. *)
Record ResponseData : Type := {
  status : option string;   (* [None]: absent or not a string *)
  message : option string   (* [None]: absent, printed as undefined *)
}.

Inductive FetchReply : Type :=
| NetworkFailure            (* the [fetch] promise rejects *)
| InvalidBody               (* [response.json()] rejects or gives [null] *)
| Replied (data : ResponseData).

Definition is_success (data : ResponseData) : bool :=
  match status data with
  | Some s => String.eqb s "success"
  | None => false
  end.

Definition template_value (v : option string) : string :=
  match v with
  | Some s => s
  | None => "undefined"
  end.

(** [{...a, ...b}]: the keys of [b] override those of [a]. *)
Definition override {A : Type} (a b : option A) : option A :=
  match b with
  | Some _ => b
  | None => a
  end.

Definition key_in (k : string) (keys : list (string * string)) : bool :=
  existsb (fun kv => String.eqb (fst kv) k) keys.

Definition spread (a b : Config) : Config :=
  {| trading := override (trading a) (trading b);
     streaming := override (streaming a) (streaming b);
     system := override (system a) (system b);
     other_keys :=
       filter (fun kv => negb (key_in (fst kv) (other_keys b))) (other_keys a)
         ++ other_keys b |}.

Definition showSuccess (message : string) : Effect :=
  ShowToast message "success".
Definition showError (message : string) : Effect :=
  ShowToast message "error".
Definition showLoading (message : string) : Effect :=
  ConsoleLog ("[SETTINGS] Loading: " ++ message).
Definition hideLoading : Effect :=
  ConsoleLog "[SETTINGS] Loading complete".

(** The effects so far, and then more of them. *)
Definition and_then (log more : list Effect) : list Effect :=
  (log ++ more)%list.

Section Settings.

(** The host's [parseInt] and [parseFloat], applied to a slider's value
    ([None] is [null]). *)
Variable parseInt : option string -> number.
Variable parseFloat : option string -> number.

Definition getSliderValue (f : Form) (sliderId : string) : option string :=
  slider_value f sliderId.

Definition getCheckboxValue (f : Form) (checkboxId : string) : bool :=
  match checkbox_checked f checkboxId with
  | Some checked => checked
  | None => false
  end.

Definition collectFormData (f : Form) : Config :=
  let int id := parseInt (getSliderValue f id) in
  let float id := parseFloat (getSliderValue f id) in
  {| trading := Some {|
       ta_params := Some {|
         rsi_period := int "rsi-period";
         rsi_overbought := int "rsi-overbought";
         rsi_oversold := int "rsi-oversold";
         sma_short := int "sma-short";
         sma_long := int "sma-long";
         ema_short := int "ema-short";
         ema_long := int "ema-long";
         stoch_overbought := int "stoch-overbought";
         stoch_oversold := int "stoch-oversold";
         min_volume_ratio := float "volume-ratio";
         min_confidence := int "min-confidence";
         min_risk_reward := float "risk-reward" |};
       signal_config := Some {|
         max_active_signals := int "max-signals";
         signal_cooldown_minutes := int "cooldown-minutes";
         stop_loss_atr_multiplier := float "stop-loss-atr";
         target_multipliers :=
           [float "target-1"; float "target-2"; float "target-3"] |};
       indicator_weights := Some [
         ("rsi", float "weight-rsi");
         ("macd", float "weight-macd");
         ("bb", float "weight-bb");
         ("stoch", float "weight-stoch");
         ("sma_cross", float "weight-sma");
         ("volume", float "weight-volume") ] |};
     streaming := Some {|
       bitcoin := Some {|
         fetch_interval := int "fetch-interval-btc";
         max_queue_size := int "max-queue-size" |} |};
     system := Some {|
       auto_start_stream := getCheckboxValue f "auto-start-stream";
       require_volume_confirmation := getCheckboxValue f "require-volume";
       enable_auto_signals := getCheckboxValue f "enable-auto-signals";
       enable_advanced_patterns :=
         getCheckboxValue f "enable-advanced-patterns";
       enable_notifications := getCheckboxValue f "enable-notifications";
       correlation_analysis := getCheckboxValue f "correlation-analysis";
       auto_cleanup := getCheckboxValue f "auto-cleanup";
       data_retention_days := int "cleanup-days" |};
     other_keys := [] |}.

(** The body of the [try] block of [saveSettings]: the page it leaves and
    the effects it has, or the ones it had when it threw. *)
Definition save_try (p : Page) (reply : FetchReply)
  : Page * list Effect * bool :=
  let log := [showLoading "Salvando configurações..."] in
  let configData := collectFormData (form p) in
  match validateConfig configData with
  | Throw _ => (p, log, true)
  | Normal validation =>
      if negb (valid validation) then
        let log :=
          and_then log
            [showError ("Configuração inválida: "
                        ++ String.concat ", " (errors validation))] in
        (p, log, false)
      else
        let log :=
          and_then log
            [Fetch "/settings/api/save-config" "POST"
               {| request_config := configData;
                  apply_immediately := true |}] in
        match reply with
        | NetworkFailure => (p, log, true)
        | InvalidBody => (p, log, true)
        | Replied data =>
            if is_success data then
              let m := {| currentConfig :=
                            spread (currentConfig (manager p)) configData;
                          unsavedChanges := false |} in
              let log :=
                and_then log
                  [UpdateSaveButton false;
                   UpdateConfigPreview (collectFormData (form p));
                   showSuccess
                     "Configurações salvas e aplicadas com sucesso!"] in
              ({| manager := m; form := form p |}, log, false)
            else
              let log :=
                and_then log
                  [showError ("Erro ao salvar: "
                              ++ template_value (message data))] in
              (p, log, false)
        end
  end.

(** [saveSettings]: the [try] block, the [catch] handler when it threw, and
    the [finally] block. *)
Definition saveSettings (p : Page) (reply : FetchReply)
  : Page * list Effect :=
  let '(p', log, threw) := save_try p reply in
  let log :=
    if threw then
      and_then log
        [ConsoleError "[SETTINGS] Erro ao salvar:";
         showError "Erro ao salvar configurações"]
    else log in
  (p', and_then log [hideLoading]).

(** What a successful save leaves. *)
Definition saved_page (p : Page) : Page :=
  {| manager := {| currentConfig :=
                     spread (currentConfig (manager p))
                            (collectFormData (form p));
                   unsavedChanges := false |};
     form := form p |}.

Definition is_fetch (e : Effect) : bool :=
  match e with
  | Fetch _ _ _ => true
  | _ => false
  end.

End Settings.

(** ** SettingsManager.displaySystemStatus *)

(** The two elements the status is painted on: the [className] of
    [#system-status-indicator] and the [textContent] of
    [#system-status-text]; [None] when the element is missing. *)
Record StatusElements : Type := {
  indicator_className : option string;
  text_textContent : option string
}.

Record SystemStatus : Type := {
  health : option string   (* [None]: a value that is not a string *)
}.

(** The [switch] on [status.health]: the class added and the text shown. *)
Definition health_case (h : option string) : string * string :=
  match h with
  | Some s =>
      if String.eqb s "HEALTHY" then ("status-active", "Sistema saudável")
      else if String.eqb s "DEGRADED" || String.eqb s "PARTIAL" then
        ("status-warning", "Sistema com problemas")
      else if String.eqb s "ERROR" then ("status-inactive", "Sistema com erros")
      else ("status-warning", "Status desconhecido")
  | None => ("status-warning", "Status desconhecido")
  end.

Definition classList_add (className class : string) : string :=
  className ++ " " ++ class.

Definition displaySystemStatus (els : StatusElements)
                               (status : option SystemStatus)
  : Completion StatusElements :=
  match indicator_className els, text_textContent els with
  | Some _, Some _ =>
      let className := "status-indicator" in
      let* status := property_of status in
      let '(class, text) := health_case (health status) in
      Normal {| indicator_className := Some (classList_add className class);
                text_textContent := Some text |}
  | _, _ => Normal els
  end.

(** The three display states of the specification, the class that shows
    each, and the mapping the specification gives. *)
Inductive TriState : Type := healthy | warning | error.

Definition state_class (t : TriState) : string :=
  match t with
  | healthy => "status-active"
  | warning => "status-warning"
  | error => "status-inactive"
  end.

Definition reconcileHealth_spec (h : option string) : TriState :=
  match h with
  | Some s =>
      if String.eqb s "HEALTHY" then healthy
      else if String.eqb s "ERROR" then error
      else warning
  | None => warning
  end.

(** ** TradingDashboard.updateSystemStatus: the multi-asset indicator *)

Record StatusText : Type := {
  textContent : string;
  className : string
}.

Definition updateStatusDisplay (isOnline : bool) (customText : option string)
  : StatusText :=
  match customText with
  | Some t => {| textContent := "Status: " ++ t; className := "status-text" |}
  | None =>
      {| textContent :=
           "Status: " ++ (if isOnline then "Online" else "Offline");
         className :=
           "status-text " ++ (if isOnline then "online" else "offline") |}
  end.

(** The answer of [/api/multi-asset/health]: the request failed, the
    response was not ok, or it carried an [overall_status]. *)
Inductive HealthReply : Type :=
| HealthFetchFailed
| HealthNotOk
| HealthBody (overall_status : option string).

Definition multi_status (reply : HealthReply) : StatusText :=
  match reply with
  | HealthBody overall_status =>
      let isHealthy :=
        match overall_status with
        | Some s => String.eqb s "HEALTHY" || String.eqb s "PARTIAL"
        | None => false
        end in
      updateStatusDisplay isHealthy None
  | HealthNotOk => updateStatusDisplay false (Some "Não disponível")
  | HealthFetchFailed => updateStatusDisplay false (Some "Não configurado")
  end.

(** ** Signals *)

(** A signal's [id]: a number or a string, or [undefined] when missing. *)
Inductive SignalId : Type :=
| IdUndefined
| IdNumber (n : Z)
| IdString (s : string).

(** [a === b] on ids. *)
Definition strict_equal (a b : SignalId) : bool :=
  match a, b with
  | IdUndefined, IdUndefined => true
  | IdNumber n, IdNumber m => n =? m
  | IdString s, IdString t => String.eqb s t
  | _, _ => false
  end.

(** The time value of a [Date], in milliseconds: an integer for a valid
    date, [NaN] for an invalid one. *)
Inductive TimeValue : Type :=
| ValidDate (t : Z)
| InvalidDate.

(** A signal as the table reads it.  [created_at] is the time value of
    [new Date(signal.created_at)]: [InvalidDate] when the signal has no
    [created_at] or one that is not a date. *)
Record Signal : Type := {
  id : SignalId;
  asset_symbol : string;
  signal_type : string;
  entry_price : number;
  target_price : number;
  stop_loss : number;
  confidence : number;
  current_pnl : number;
  signal_status : string;
  created_at : TimeValue
}.

(** *** Array methods *)

(** [array.findIndex(p)]: the index of the first element that satisfies
    [p], or [-1]. *)
Fixpoint findIndex_from {A : Type} (p : A -> bool) (l : list A) (i : Z) : Z :=
  match l with
  | [] => -1
  | x :: rest => if p x then i else findIndex_from p rest (i + 1)
  end.

Definition findIndex {A : Type} (p : A -> bool) (l : list A) : Z :=
  findIndex_from p l 0.

(** [array.filter((element, index) => ...)]. *)
Fixpoint filter_from {A : Type} (p : A -> Z -> bool) (l : list A) (i : Z)
  : list A :=
  match l with
  | [] => []
  | x :: rest =>
      if p x i then x :: filter_from p rest (i + 1)
      else filter_from p rest (i + 1)
  end.

Definition filter_indexed {A : Type} (p : A -> Z -> bool) (l : list A)
  : list A :=
  filter_from p l 0.

(** What a comparator answers: a number of which the sort reads the sign,
    or [NaN]. *)
Inductive Order : Type :=
| Signed (v : Z)
| OrderNaN.

(** [SortCompare]: the comparator's answer as the sort reads it; [NaN]
    counts as [+0]. *)
Definition SortCompare {A : Type} (compare : A -> A -> Order) (x y : A) : Z :=
  match compare x y with
  | Signed v => v
  | OrderNaN => 0
  end.

(** [array.sort(compare)].  The sort is stable, so for a comparator that
    orders the elements consistently the result is the one arrangement in
    which [compare] never puts a later element before an earlier one and
    elements that compare equal keep their order; insertion computes it.
    For a comparator that is not consistent the language leaves the order
    to the engine.  Insertion then still moves an element only past
    elements it compares after, so an array in which no element compares
    after its successor is returned as it is; an engine that first looks
    for a run of elements already in order (V8) returns such an array as
    it is, too. *)
Fixpoint sort_insert {A : Type} (compare : A -> A -> Order) (x : A)
         (l : list A) : list A :=
  match l with
  | [] => [x]
  | y :: rest =>
      if SortCompare compare x y <=? 0 then x :: y :: rest
      else y :: sort_insert compare x rest
  end.

Fixpoint Array_sort {A : Type} (compare : A -> A -> Order) (l : list A)
  : list A :=
  match l with
  | [] => []
  | x :: rest => sort_insert compare x (Array_sort compare rest)
  end.

(** [array.slice(0, n)]. *)
Definition slice0 {A : Type} (n : nat) (l : list A) : list A := firstn n l.

(** *** TradingDashboard.removeDuplicateSignals *)

Definition removeDuplicateSignals (signals : list Signal) : list Signal :=
  filter_indexed
    (fun signal index =>
       index =? findIndex (fun s => strict_equal (id s) (id signal)) signals)
    signals.

(** [x - y] on the time values of two dates: [NaN] when one of them is
    invalid.  The difference of two valid time values is rounded to a
    number, which keeps its sign, and the sort reads no more than the
    sign. *)
Definition Date_minus (x y : TimeValue) : Order :=
  match x, y with
  | ValidDate tx, ValidDate ty => Signed (tx - ty)
  | _, _ => OrderNaN
  end.

(** The comparator of [displaySignalsTable]:
    [new Date(b.created_at) - new Date(a.created_at)]. *)
Definition by_created_desc (a b : Signal) : Order :=
  Date_minus (created_at b) (created_at a).

(** The signals [displaySignalsTable] makes rows of, in row order. *)
Definition reconcileSignals (signals : list Signal) : list Signal :=
  let uniqueSignals := removeDuplicateSignals signals in
  let uniqueSignals := Array_sort by_created_desc uniqueSignals in
  slice0 20 uniqueSignals.

(** *** The dashboard *)

(** What [#signals-table-body] shows: the empty-list notice, one row per
    signal (each row is built from its signal's fields alone), or the error
    notice. *)
Inductive TableBody : Type :=
| NoSignalsNotice
| Rows (signals : list Signal)
| ErrorNotice.

Record MonitorStatus : Type := {
  is_running : bool;
  tracked_signals_count : Z
}.

(** What [#signal-monitor-info] shows. *)
Inductive MonitorInfo : Type :=
| NoInfo
| Info (isRunning : bool) (trackedCount : Z).

Record Dashboard : Type := {
  signalMonitorEnabled : bool;
  lastSignalMonitorCheck : Z;
  signalCheckInterval : Z;
  duplicateAlertShown : bool;
  (* the document *)
  signals_table_body : option TableBody;
  active_signals_count : option string;
  total_signals_count : option string;
  signal_monitor_info : option MonitorInfo;
  card_header : bool;
  (* the console *)
  console : list string
}.

Definition set_table_body (d : Dashboard) (body : TableBody) : Dashboard :=
  {| signalMonitorEnabled := signalMonitorEnabled d;
     lastSignalMonitorCheck := lastSignalMonitorCheck d;
     signalCheckInterval := signalCheckInterval d;
     duplicateAlertShown := duplicateAlertShown d;
     signals_table_body := Some body;
     active_signals_count := active_signals_count d;
     total_signals_count := total_signals_count d;
     signal_monitor_info := signal_monitor_info d;
     card_header := card_header d;
     console := console d |}.

Definition console_write (d : Dashboard) (line : string) : Dashboard :=
  {| signalMonitorEnabled := signalMonitorEnabled d;
     lastSignalMonitorCheck := lastSignalMonitorCheck d;
     signalCheckInterval := signalCheckInterval d;
     duplicateAlertShown := duplicateAlertShown d;
     signals_table_body := signals_table_body d;
     active_signals_count := active_signals_count d;
     total_signals_count := total_signals_count d;
     signal_monitor_info := signal_monitor_info d;
     card_header := card_header d;
     console := (console d ++ [line])%list |}.

(** [displaySignalsTable]; the time stamp that [addUpdateIndicator] puts
    beside the table is not part of the table body and is left out. *)
Definition displaySignalsTable (d : Dashboard) (signals : list Signal)
  : Dashboard :=
  match signals_table_body d with
  | None => d
  | Some _ =>
      if (List.length signals =? 0)%nat then set_table_body d NoSignalsNotice
      else set_table_body d (Rows (reconcileSignals signals))
  end.

Definition showSignalsError (d : Dashboard) : Dashboard :=
  match signals_table_body d with
  | None => d
  | Some _ => set_table_body d ErrorNotice
  end.

(** [checkForDuplicateSignals]: the ids already seen, in a [Set]; a
    warning the first time a list with repeated ids arrives. *)
Fixpoint duplicate_ids (uniqueIds : list SignalId) (signals : list Signal)
  : list SignalId :=
  match signals with
  | [] => []
  | signal :: rest =>
      if existsb (strict_equal (id signal)) uniqueIds
      then id signal :: duplicate_ids uniqueIds rest
      else duplicate_ids (id signal :: uniqueIds) rest
  end.

Definition with_duplicateAlertShown (d : Dashboard) (shown : bool)
  : Dashboard :=
  {| signalMonitorEnabled := signalMonitorEnabled d;
     lastSignalMonitorCheck := lastSignalMonitorCheck d;
     signalCheckInterval := signalCheckInterval d;
     duplicateAlertShown := shown;
     signals_table_body := signals_table_body d;
     active_signals_count := active_signals_count d;
     total_signals_count := total_signals_count d;
     signal_monitor_info := signal_monitor_info d;
     card_header := card_header d;
     console := console d |}.

Definition checkForDuplicateSignals (d : Dashboard) (signals : list Signal)
  : Dashboard :=
  let duplicates := duplicate_ids [] signals in
  if (0 <? List.length duplicates)%nat && negb (duplicateAlertShown d) then
    with_duplicateAlertShown
      (console_write d
         ("[DASHBOARD] "
            ++ decimal_of_Z (Z.of_nat (List.length duplicates))
            ++ " sinais duplicados detectados"))
      true
  else d.

Definition with_lastSignalMonitorCheck (d : Dashboard) (now : Z) : Dashboard :=
  {| signalMonitorEnabled := signalMonitorEnabled d;
     lastSignalMonitorCheck := now;
     signalCheckInterval := signalCheckInterval d;
     duplicateAlertShown := duplicateAlertShown d;
     signals_table_body := signals_table_body d;
     active_signals_count := active_signals_count d;
     total_signals_count := total_signals_count d;
     signal_monitor_info := signal_monitor_info d;
     card_header := card_header d;
     console := console d |}.

Definition checkSignalMonitorStatus (d : Dashboard)
                                    (monitorStatus : option MonitorStatus)
                                    (now : Z)
  : Dashboard :=
  match monitorStatus with
  | None => d
  | Some monitorStatus =>
      if signalCheckInterval d <? now - lastSignalMonitorCheck d then
        let d := with_lastSignalMonitorCheck d now in
        if negb (is_running monitorStatus)
        then console_write d "[DASHBOARD] Signal Monitor não está rodando"
        else d
      else d
  end.

Definition updateSignalsCounts (d : Dashboard) (signals : list Signal)
  : Dashboard :=
  let activeSignals :=
    List.length
      (filter (fun s => String.eqb (signal_status s) "ACTIVE") signals) in
  let totalSignals := List.length signals in
  {| signalMonitorEnabled := signalMonitorEnabled d;
     lastSignalMonitorCheck := lastSignalMonitorCheck d;
     signalCheckInterval := signalCheckInterval d;
     duplicateAlertShown := duplicateAlertShown d;
     signals_table_body := signals_table_body d;
     active_signals_count :=
       match active_signals_count d with
       | Some _ => Some (decimal_of_Z (Z.of_nat activeSignals) ++ " Ativos")
       | None => None
       end;
     total_signals_count :=
       match total_signals_count d with
       | Some _ => Some (decimal_of_Z (Z.of_nat totalSignals) ++ " Total")
       | None => None
       end;
     signal_monitor_info := signal_monitor_info d;
     card_header := card_header d;
     console := console d |}.

Definition updateMonitorInfo (d : Dashboard)
                             (monitorStatus : option MonitorStatus)
  : Dashboard :=
  let monitorInfo :=
    match signal_monitor_info d with
    | Some info => Some info
    | None => if card_header d then Some NoInfo else None
    end in
  let monitorInfo :=
    match monitorInfo, monitorStatus with
    | Some _, Some monitorStatus =>
        Some (Info (is_running monitorStatus)
                   (tracked_signals_count monitorStatus))
    | _, _ => monitorInfo
    end in
  {| signalMonitorEnabled := signalMonitorEnabled d;
     lastSignalMonitorCheck := lastSignalMonitorCheck d;
     signalCheckInterval := signalCheckInterval d;
     duplicateAlertShown := duplicateAlertShown d;
     signals_table_body := signals_table_body d;
     active_signals_count := active_signals_count d;
     total_signals_count := total_signals_count d;
     signal_monitor_info := monitorInfo;
     card_header := card_header d;
     console := console d |}.

(** *** TradingDashboard.updateSignalsTable *)

Record DashboardData : Type := {
  active_signals : option (list Signal);
  monitor_status : option MonitorStatus
}.

(** The answer of [/api/signals/dashboard-data], as one polling cycle
    observes it. *)
Inductive SignalsReply : Type :=
| SignalsFetchRejected                (* the [fetch] promise rejects *)
| SignalsHttpError (code : Z)         (* [response.ok] is false *)
| SignalsInvalidBody                  (* [response.json()] rejects *)
| SignalsResult (success : bool) (data : option DashboardData).

(** The [try] block: the dashboard it leaves, or the one it had reached
    when it threw. *)
Definition signals_try (d : Dashboard) (reply : SignalsReply) (now : Z)
  : Dashboard * bool :=
  match reply with
  | SignalsFetchRejected => (d, true)
  | SignalsHttpError _ => (d, true)
  | SignalsInvalidBody => (d, true)
  | SignalsResult success data =>
      if negb success then (d, true)
      else
        match data with
        | None => (d, true)
        | Some data =>
            let signals :=
              match active_signals data with
              | Some signals => signals
              | None => []
              end in
            let d := checkForDuplicateSignals d signals in
            let d :=
              if signalMonitorEnabled d
              then checkSignalMonitorStatus d (monitor_status data) now
              else d in
            let d := displaySignalsTable d signals in
            let d := updateSignalsCounts d signals in
            let d := updateMonitorInfo d (monitor_status data) in
            (d, false)
        end
  end.

Definition updateSignalsTable (d : Dashboard) (reply : SignalsReply) (now : Z)
  : Dashboard :=
  let '(d', threw) := signals_try d reply now in
  if threw then
    showSignalsError
      (console_write d' "[DASHBOARD] Erro ao atualizar tabela de sinais:")
  else d'.

(** A cycle whose fetch fails: no usable answer reached the [try] block. *)
Definition fetch_failed (reply : SignalsReply) : bool :=
  match reply with
  | SignalsResult true _ => false
  | _ => true
  end.

(** ** Reading plain decimal numerals

    [parseInt] and [parseFloat] on the numerals a range input holds (an
    optional minus sign, digits, an optional fraction), to run the settings
    page on concrete forms. *)

Definition digit_of (c : ascii) : option Z :=
  let n := Z.of_N (N_of_ascii c) in
  if (48 <=? n) && (n <=? 57) then Some (n - 48) else None.

Fixpoint read_digits (s : string) (acc : Z) (count : nat)
  : Z * nat * string :=
  match s with
  | String c rest =>
      match digit_of c with
      | Some d => read_digits rest (10 * acc + d) (S count)
      | None => (acc, count, s)
      end
  | EmptyString => (acc, count, s)
  end.

Definition read_sign (s : string) : bool * string :=
  match s with
  | String "-"%char rest => (true, rest)
  | _ => (false, s)
  end.

Definition decimal_parseInt (v : option string) : number :=
  match v with
  | None => nan
  | Some s =>
      let '(neg, s) := read_sign s in
      let '(i, count, _) := read_digits s 0 0 in
      if (count =? 0)%nat then nan
      else of_Z neg (if neg then - i else i)
  end.

Definition decimal_parseFloat (v : option string) : number :=
  match v with
  | None => nan
  | Some s =>
      let '(neg, s) := read_sign s in
      let '(i, ni, s) := read_digits s 0 0 in
      let '(f, nf, _) :=
        match s with
        | String "."%char rest => read_digits rest i 0
        | _ => (i, O, s)
        end in
      if (ni + nf =? 0)%nat then nan
      else if f =? 0 then of_Z neg 0
      else
        SF2Prim
          (SFdiv prec emax
             (S754_finite neg (Z.to_pos f) 0)
             (S754_finite false (Z.to_pos (10 ^ Z.of_nat nf)) 0))
  end.

(** ** Sample data *)

Definition lookup {V : Type} (table : list (string * V)) (key : string)
  : option V :=
  match find (fun kv => String.eqb (fst kv) key) table with
  | Some kv => Some (snd kv)
  | None => None
  end.

Definition form_of (sliders : list (string * string))
                   (checkboxes : list (string * bool)) : Form :=
  {| slider_value := lookup sliders; checkbox_checked := lookup checkboxes |}.

Definition sample_sliders : list (string * string) :=
  [ ("rsi-period", "14"); ("rsi-overbought", "70"); ("rsi-oversold", "30");
    ("sma-short", "9"); ("sma-long", "21");
    ("ema-short", "12"); ("ema-long", "26");
    ("stoch-overbought", "80"); ("stoch-oversold", "20");
    ("volume-ratio", "1.5"); ("min-confidence", "60"); ("risk-reward", "2.5");
    ("max-signals", "5"); ("cooldown-minutes", "60"); ("stop-loss-atr", "2");
    ("target-1", "1.5"); ("target-2", "2.5"); ("target-3", "4");
    ("weight-rsi", "0.2"); ("weight-macd", "0.2"); ("weight-bb", "0.2");
    ("weight-stoch", "0.2"); ("weight-sma", "0.1"); ("weight-volume", "0.1");
    ("fetch-interval-btc", "300"); ("max-queue-size", "100");
    ("cleanup-days", "30") ].

Definition sample_checkboxes : list (string * bool) :=
  [ ("auto-start-stream", true); ("require-volume", true);
    ("enable-auto-signals", true); ("enable-notifications", false) ].

(** A form that validates, and the same form after the user dragged the
    RSI oversold slider above the overbought one. *)
Definition sample_form : Form := form_of sample_sliders sample_checkboxes.


(** The sample form with the stochastic sliders crossed: oversold at 80,
    overbought at 20. *)
Definition crossed_stoch_form : Form :=
  form_of (("stoch-oversold", "80") :: ("stoch-overbought", "20")
             :: sample_sliders)
          sample_checkboxes.

Definition sample_manager : SettingsManager :=
  {| currentConfig :=
       {| trading := None; streaming := None; system := None;
          other_keys := [("version", "2.0.0")] |};
     unsavedChanges := true |}.

Definition sample_page : Page :=
  {| manager := sample_manager; form := sample_form |}.


Definition crossed_stoch_page : Page :=
  {| manager := sample_manager; form := crossed_stoch_form |}.

Definition sample_ta : TaParams :=
  {| rsi_period := 14; rsi_overbought := 70; rsi_oversold := 30;
     sma_short := 9; sma_long := 21; ema_short := 12; ema_long := 26;
     stoch_overbought := 80; stoch_oversold := 20;
     min_volume_ratio := 1.5; min_confidence := 60;
     min_risk_reward := 2.5 |}%float.

Definition sample_weights : IndicatorWeights :=
  [ ("rsi", 0.2); ("macd", 0.2); ("bb", 0.2); ("stoch", 0.2);
    ("sma_cross", 0.1); ("volume", 0.1) ]%float.

(** Weights that add up to 1.01 in decimal. *)
Definition boundary_weights : IndicatorWeights :=
  [ ("rsi", 0.2); ("macd", 0.2); ("bb", 0.2); ("stoch", 0.2);
    ("sma_cross", 0.1); ("volume", 0.11) ]%float.


Definition edge_weights_accepted : IndicatorWeights :=
  [ ("rsi", 0.01); ("macd", 0.25); ("bb", 0.09); ("stoch", 0.02);
    ("sma_cross", 0.46); ("volume", 0.16) ]%float.

Definition heavy_weights : IndicatorWeights :=
  [ ("rsi", 0.5); ("macd", 0.5); ("bb", 0.1); ("stoch", 0);
    ("sma_cross", 0); ("volume", 0) ]%float.

Definition config_with (ta : TaParams) (weights : IndicatorWeights) : Config :=
  {| trading := Some {| ta_params := Some ta;
                        signal_config := None;
                        indicator_weights := Some weights |};
     streaming := None;
     system := None;
     other_keys := [] |}.

(** The thresholds of [sample_ta] with the stochastic pair crossed:
    oversold 80 over overbought 20. *)
Definition crossed_stoch_ta : TaParams :=
  {| rsi_period := 14; rsi_overbought := 70; rsi_oversold := 30;
     sma_short := 9; sma_long := 21; ema_short := 12; ema_long := 26;
     stoch_overbought := 20; stoch_oversold := 80;
     min_volume_ratio := 1.5; min_confidence := 60;
     min_risk_reward := 2.5 |}%float.

(** The thresholds of [sample_ta] with the RSI pair crossed. *)
Definition crossed_rsi_ta : TaParams :=
  {| rsi_period := 14; rsi_overbought := 70; rsi_oversold := 75;
     sma_short := 9; sma_long := 21; ema_short := 12; ema_long := 26;
     stoch_overbought := 80; stoch_oversold := 20;
     min_volume_ratio := 1.5; min_confidence := 60;
     min_risk_reward := 2.5 |}%float.

(** A configuration without a [trading] section whose other sections are
    filled in. *)
Definition config_without_trading : Config :=
  {| trading := None;
     streaming := Some {| bitcoin := Some {| fetch_interval := (-5)%float;
                                             max_queue_size := nan |} |};
     system := Some {| auto_start_stream := true;
                       require_volume_confirmation := false;
                       enable_auto_signals := true;
                       enable_advanced_patterns := false;
                       enable_notifications := true;
                       correlation_analysis := false;
                       auto_cleanup := true;
                       data_retention_days := (-1)%float |};
     other_keys := [("indicator_weights", "{}")] |}.

(** Which messages are weight-sum errors. *)
Definition is_weight_sum_error (message : string) : bool :=
  prefix "Soma dos pesos" message.

(** A save that did not go through: the request failed, the body could not
    be read, or the server answered with a status other than success. *)
Definition save_failed (reply : FetchReply) : bool :=
  match reply with
  | NetworkFailure => true
  | InvalidBody => true
  | Replied data => negb (is_success data)
  end.

(** ** Reference notions for the weight sum *)

(** Numbers added in binary64 one after the other, starting from 0: no
    number gives 0, and the numbers [before] followed by [w] give the sum
    of [before], plus [w].  The list holds the numbers last first. *)
Fixpoint added_last_first (ws : list number) : number :=
  match ws with
  | [] => 0%float
  | w :: before => (added_last_first before + w)%float
  end.

Definition binary64_sum (ws : list number) : number :=
  added_last_first (rev ws).

(** The value of a finite number, as a rational. *)
Definition exact_value (x : number) : option Q :=
  match Prim2SF x with
  | S754_zero _ => Some 0%Q
  | S754_finite s m e => Some (if s then - value_of m e else value_of m e)%Q
  | _ => None
  end.

(** The sum of the values of the numbers, without rounding. *)
Fixpoint exact_sum (ws : list number) : option Q :=
  match ws with
  | [] => Some 0%Q
  | w :: rest =>
      match exact_value w, exact_sum rest with
      | Some v, Some s => Some (v + s)%Q
      | _, _ => None
      end
  end.

(** The values of the weights sum, without rounding, to within 0.01 of
    1.0. *)
Definition within_tolerance (weights : IndicatorWeights) : bool :=
  match exact_sum (Object_values weights) with
  | Some s => Qle_bool (99 # 100) s && Qle_bool s (101 # 100)
  | None => false
  end.

(** ** Reference notions for the signal table *)

(** [s] carries the same id as [signal]. *)
Definition same_id (signal s : Signal) : bool :=
  strict_equal (id s) (id signal).

(** The first occurrences of [suf], read after the signals [pre]: a signal
    is kept when no earlier one carries its id. *)
Fixpoint first_occurrences (pre suf : list Signal) : list Signal :=
  match suf with
  | [] => []
  | x :: rest =>
      if existsb (same_id x) pre
      then first_occurrences (pre ++ [x]) rest
      else x :: first_occurrences (pre ++ [x]) rest
  end.

(** How many entries of [l] carry the id of [signal]. *)
Definition entries_for (signal : Signal) (l : list Signal) : nat :=
  List.length (filter (same_id signal) l).

(** The signal carries a valid creation date. *)
Definition has_date (s : Signal) : bool :=
  match created_at s with
  | ValidDate _ => true
  | InvalidDate => false
  end.

Definition dated (s : Signal) : Prop := has_date s = true.

(** [a] and [b] carry valid dates and [a] was created no earlier than
    [b]. *)
Definition created_after (a b : Signal) : Prop :=
  match created_at a, created_at b with
  | ValidDate ta, ValidDate tb => tb <= ta
  | _, _ => False
  end.

(** The comparator gives the sort no reason to put [b] before [a]. *)
Definition in_order (a b : Signal) : Prop :=
  SortCompare by_created_desc a b <= 0.

(** *** Sample signals *)

Definition sample_signal (n : Z) (symbol : string) (pnl : number) (at_ : Z)
  : Signal :=
  {| id := IdNumber n;
     asset_symbol := symbol;
     signal_type := "BUY_LONG";
     entry_price := 100;
     target_price := 110;
     stop_loss := 95;
     confidence := 80;
     current_pnl := pnl;
     signal_status := "ACTIVE";
     created_at := ValidDate at_ |}%float.

(** A signal that arrives without [created_at]. *)
Definition undated_signal (n : Z) (symbol : string) : Signal :=
  {| id := IdNumber n;
     asset_symbol := symbol;
     signal_type := "BUY_LONG";
     entry_price := 100;
     target_price := 110;
     stop_loss := 95;
     confidence := 80;
     current_pnl := 0;
     signal_status := "ACTIVE";
     created_at := InvalidDate |}%float.

(** The list of the specification's scenario: ids 1, 2 and 1 again, the
    second entry for id 1 with other fields. *)
Definition signal_1 : Signal := sample_signal 1 "BTC" 0.5%float 1000.
Definition signal_2 : Signal := sample_signal 2 "ETH" 0%float 2000.
Definition signal_1_later : Signal := sample_signal 1 "SOL" 9.5%float 3000.

Definition scenario_signals : list Signal :=
  [signal_1; signal_2; signal_1_later].

(** Twenty-five signals, ids 1 to 25, the signal with id [n] created at
    time [1000 * n], arriving oldest first. *)
Definition numbered_signal (n : nat) : Signal :=
  sample_signal (Z.of_nat n) "BTC" 0%float (1000 * Z.of_nat n).

Definition twenty_five_signals : list Signal :=
  map numbered_signal (seq 1 25).

(** Twenty-one signals, ids 1 to 21: the first created at time 1000, the
    second without a date, and the signal with id [n], from 3 on, created
    at time [1000 * (24 - n)], so that from the third on they arrive most
    recent first (times 21000 down to 3000). *)
Definition newest_first_signal (n : nat) : Signal :=
  sample_signal (Z.of_nat n) "BTC" 0%float (1000 * (24 - Z.of_nat n)).

Definition oldest_signal : Signal := sample_signal 1 "BTC" 0%float 1000.
Definition signal_without_date : Signal := undated_signal 2 "ETH".

Definition signals_with_undated : list Signal :=
  oldest_signal :: signal_without_date :: map newest_first_signal (seq 3 19).

(** The comparisons a sort makes when it looks for elements already in
    order: each element against the one before it. *)
Definition compared_with_previous (l : list Signal) : list Z :=
  map (fun pair => SortCompare by_created_desc (snd pair) (fst pair))
      (combine l (tl l)).

Definition sample_dashboard : Dashboard :=
  {| signalMonitorEnabled := true;
     lastSignalMonitorCheck := 0;
     signalCheckInterval := 30000;
     duplicateAlertShown := false;
     signals_table_body := Some NoSignalsNotice;
     active_signals_count := Some "0 Ativos";
     total_signals_count := Some "0 Total";
     signal_monitor_info := None;
     card_header := true;
     console := [] |}.

Definition sample_data : DashboardData :=
  {| active_signals := Some scenario_signals;
     monitor_status := Some {| is_running := true;
                               tracked_signals_count := 2 |} |}.

(** The dashboard after a polling cycle that went well. *)
Definition dashboard_after_good_poll : Dashboard :=
  updateSignalsTable sample_dashboard (SignalsResult true (Some sample_data))
                     40000.


(** * More of the controllers *)

(** ** SettingsManager.updateTotalWeight *)

(** [a < b] on numbers. *)
Definition less (a b : number) : bool := (a <? b)%float.

(** [#total-weight]: its text and its class. *)
Record TotalDisplay : Type := {
  total_textContent : string;
  total_className : string
}.

Definition weight_sliders : list string :=
  [ "weight-rsi"; "weight-macd"; "weight-bb";
    "weight-stoch"; "weight-sma"; "weight-volume" ].

(** The slider is in the document. *)
Definition slider_present (f : Form) (sliderId : string) : bool :=
  match slider_value f sliderId with
  | Some _ => true
  | None => false
  end.

(** ** SettingsManager: the system actions and their confirmation *)

(** The callbacks handed to [showConfirmDialog]: the one of
    [executeSystemAction], which records the pending action, and the one of
    [cleanupData], which performs the cleanup. *)
Inductive Callback : Type :=
| SetPendingAction (action : string)
| PerformCleanup (days : number).

Record Confirmation : Type := {
  pendingAction : option string;        (* [None]: undefined or null *)
  confirmCallback : option Callback;
  confirm_message : option string;      (* text of [#confirm-message] *)
  modal_instance : bool                 (* a modal was made for the dialog *)
}.

(** The manager as its constructor leaves it: no pending action, no
    callback; [message] is the text of [#confirm-message] in the document,
    if the element is there. *)
Definition new_confirmation (message : option string) : Confirmation :=
  {| pendingAction := None;
     confirmCallback := None;
     confirm_message := message;
     modal_instance := false |}.

Inductive ActionEffect : Type :=
| ActionLog (line : string)
| ActionToast (message : option string) (type : string)
| ActionRequest (action : string) (days_to_keep : option number)
| ModalShow
| ModalHide.

Definition is_action_request (e : ActionEffect) : bool :=
  match e with
  | ActionRequest _ _ => true
  | _ => false
  end.

(** [if (value)] on a string that may be missing. *)
Definition truthy (value : option string) : bool :=
  match value with
  | Some s => negb (String.eqb s EmptyString)
  | None => false
  end.

(** [performSystemAction]: what it does up to the [await], and what it does
    with the server's answer. *)
Definition performSystemAction_request (action : string)
                                       (days_to_keep : option number)
  : list ActionEffect :=
  [ ActionLog ("[SETTINGS] Loading: Executando " ++ action ++ "...");
    ActionRequest action days_to_keep ].

Definition performSystemAction_answer (action : string) (reply : FetchReply)
  : list ActionEffect :=
  let outcome : list ActionEffect :=
    match reply with
    | Replied data =>
        if is_success data then [ActionToast (message data) "success"]
        else [ActionToast (message data) "error"]
    | _ =>
        [ ActionLog ("[SETTINGS] Erro ao executar " ++ action ++ ":");
          ActionToast (Some ("Erro ao executar " ++ action)) "error" ]
    end in
  app outcome [ActionLog "[SETTINGS] Loading complete"].

Definition showConfirmDialog (c : Confirmation) (message : string)
                             (onConfirm : Callback)
  : Confirmation * list ActionEffect :=
  ({| pendingAction := pendingAction c;
      confirmCallback := Some onConfirm;
      confirm_message :=
        match confirm_message c with
        | Some _ => Some message
        | None => None
        end;
      modal_instance := true |},
   [ModalShow]).

Definition executeSystemAction (c : Confirmation) (action : string)
                               (confirmMessage : option string)
                               (reply : FetchReply)
  : Confirmation * list ActionEffect :=
  if truthy confirmMessage then
    showConfirmDialog c (template_value confirmMessage)
                      (SetPendingAction action)
  else
    (c, app (performSystemAction_request action None)
            (performSystemAction_answer action reply)).

Definition executeConfirmedAction (c : Confirmation) (reply : FetchReply)
  : Confirmation * list ActionEffect :=
  let hide : list ActionEffect :=
    if modal_instance c then [ModalHide] else [] in
  if truthy (pendingAction c) then
    let action := template_value (pendingAction c) in
    ({| pendingAction := None;
        confirmCallback := confirmCallback c;
        confirm_message := confirm_message c;
        modal_instance := modal_instance c |},
     app (performSystemAction_request action None)
         (app hide (performSystemAction_answer action reply)))
  else (c, hide).

(** The buttons of the page that lead to a system action. *)
Inductive Button : Type :=
| reset_signals_btn
| restart_analyzers_btn
| force_save_btn
| cleanup_now_btn
| backup_now_btn
| confirm_action_btn.

(** ** TradingDashboard.updateAll *)

(** The guard of [updateAll]: the flag, and how many calls are suspended at
    their [await]. *)
Record Poller : Type := {
  isUpdating : bool;
  running : nat
}.

Definition new_poller : Poller := {| isUpdating := false; running := 0 |}.

(** A call of [updateAll] up to its [await]: it returns at once when the
    flag is set, and otherwise sets it and starts the three updates. *)
Definition updateAll_call (s : Poller) : Poller * bool :=
  if isUpdating s then (s, false)
  else ({| isUpdating := true; running := S (running s) |}, true).

(** The [finally] block of a suspended call, when its updates settled. *)
Definition updateAll_settled (s : Poller) : Poller :=
  match running s with
  | O => s
  | S n => {| isUpdating := false; running := n |}
  end.

Inductive PollerEvent : Type :=
| CallUpdateAll          (* the interval timer, or [forceUpdate] *)
| UpdatesSettled.        (* the updates of a suspended call settled *)

Definition poller_step (s : Poller) (e : PollerEvent) : Poller :=
  match e with
  | CallUpdateAll => fst (updateAll_call s)
  | UpdatesSettled => updateAll_settled s
  end.

(** ** Polling cycles of the signals table *)

Definition poll_cycles (d : Dashboard) (polls : list (SignalsReply * Z))
  : Dashboard :=
  fold_left (fun d poll => updateSignalsTable d (fst poll) (snd poll)) polls d.

(** The signals of an answer: [data.active_signals || []]. *)
Definition signals_of (data : DashboardData) : list Signal :=
  match active_signals data with
  | Some signals => signals
  | None => []
  end.

(** The warning of [checkForDuplicateSignals] for [n] duplicates. *)
Definition duplicate_warning (n : nat) : string :=
  "[DASHBOARD] " ++ decimal_of_Z (Z.of_nat n)
    ++ " sinais duplicados detectados".

Definition ends_with (s suffix : string) : bool :=
  String.eqb
    (substring (String.length s - String.length suffix)
               (String.length suffix) s)
    suffix.

(** The lines of the console that warn of duplicated signals. *)
Definition is_duplicate_warning (line : string) : bool :=
  ends_with line " sinais duplicados detectados".

Definition duplicate_warnings (d : Dashboard) : nat :=
  List.length (filter is_duplicate_warning (console d)).

(** At most one warning so far, and none while the alert was not shown. *)
Definition warned_once (d : Dashboard) : Prop :=
  (duplicate_warnings d <= 1)%nat
  /\ (duplicateAlertShown d = false -> duplicate_warnings d = 0%nat).

(** A dashboard as the constructor leaves it, on a document [doc]. *)
Definition new_dashboard (doc : Dashboard) : Dashboard :=
  {| signalMonitorEnabled := true;
     lastSignalMonitorCheck := 0;
     signalCheckInterval := 30000;
     duplicateAlertShown := false;
     signals_table_body := signals_table_body doc;
     active_signals_count := active_signals_count doc;
     total_signals_count := total_signals_count doc;
     signal_monitor_info := signal_monitor_info doc;
     card_header := card_header doc;
     console := [] |}.


Section SettingsControls.

Variable parseInt : option string -> number.
Variable parseFloat : option string -> number.

(** The sum [updateTotalWeight] makes: the sliders that are missing from
    the document are skipped. *)
Definition slider_total (f : Form) : number :=
  fold_left
    (fun total weightId =>
       match slider_value f weightId with
       | Some value => (total + parseFloat (Some value))%float
       | None => total
       end)
    weight_sliders 0%float.

Definition updateTotalWeight (f : Form) (totalDisplay : option TotalDisplay)
  : option TotalDisplay :=
  let total := slider_total f in
  match totalDisplay with
  | Some _ =>
      let diff := Math_abs (total - 1.0)%float in
      Some {| total_textContent :=
                Number_toString (Math_round (total * 100)%float) ++ "%";
              total_className :=
                if less diff 0.01%float then "text-success"
                else if less diff 0.05%float then "text-warning"
                else "text-danger" |}
  | None => None
  end.

Definition cleanupData (c : Confirmation) (f : Form)
  : Confirmation * list ActionEffect :=
  let days := parseInt (getSliderValue f "cleanup-days") in
  showConfirmDialog c
    ("Remover dados anteriores a " ++ Number_toString days ++ " dias?")
    (PerformCleanup days).

(** The click handlers that [setupEventListeners] and [setupButton] attach;
    [reply] is the server's answer, should a request be sent. *)
Definition click (f : Form) (c : Confirmation) (b : Button)
                 (reply : FetchReply)
  : Confirmation * list ActionEffect :=
  match b with
  | reset_signals_btn =>
      executeSystemAction c "reset_signals"
        (Some "Resetar todos os sinais?") reply
  | restart_analyzers_btn =>
      executeSystemAction c "restart_analyzers"
        (Some "Reiniciar analyzers?") reply
  | force_save_btn =>
      executeSystemAction c "force_save"
        (Some "Forçar salvamento de estado?") reply
  | cleanup_now_btn => cleanupData c f
  | backup_now_btn =>
      executeSystemAction c "backup_database"
        (Some "Fazer backup dos bancos de dados?") reply
  | confirm_action_btn => executeConfirmedAction c reply
  end.

(** Clicks one after the other, with everything they did. *)
Fixpoint clicks (f : Form) (c : Confirmation)
                (bs : list (Button * FetchReply))
  : Confirmation * list ActionEffect :=
  match bs with
  | [] => (c, [])
  | (b, reply) :: rest =>
      let '(c1, done1) := click f c b reply in
      let '(c2, done2) := clicks f c1 rest in
      (c2, app done1 done2)
  end.

End SettingsControls.

(** ** common.js *)

Module Common.

(** [Math.min] and [Math.max] of two numbers: [NaN] when one of them is;
    of the two zeros, [-0] is the smaller. *)
Definition Math_min (a b : number) : number :=
  if is_nan a || is_nan b then nan
  else if (a <? b)%float then a
  else if (b <? a)%float then b
  else if get_sign a then a else b.

Definition Math_max (a b : number) : number :=
  if is_nan a || is_nan b then nan
  else if (a <? b)%float then b
  else if (b <? a)%float then a
  else if get_sign a then b else a.

(** [!x] on a number: zero and [NaN] are falsy (a missing field reads
    [undefined], falsy as well, and is given as [NaN]). *)
Definition falsy (x : number) : bool := is_nan x || is_zero x.

Record PricedSignal : Type := {
  entry_price : number;
  target_price : number;
  current_price : number
}.

Definition calculateProgress (signal : option PricedSignal) : number :=
  match signal with
  | None => 0%float
  | Some signal =>
      if falsy (entry_price signal) || falsy (target_price signal)
         || falsy (current_price signal)
      then 0%float
      else
        let total := (target_price signal - entry_price signal)%float in
        let current := (current_price signal - entry_price signal)%float in
        let progress := (current / total * 100)%float in
        Math_max 0%float (Math_min 100%float progress)
  end.

(** [getTimeElapsed]: [now] is the time value of [new Date()], [time] the
    one of [new Date(timestamp)], [None] for an invalid date.  Time values
    are integers of magnitude at most 8.64e15, on which the subtraction,
    the division by 60000 and [Math.floor] of numbers are those of
    integers. *)
Definition getTimeElapsed (now : Z) (time : option Z) : string :=
  match time with
  | None => "NaNd atrás"
  | Some time =>
      let diffMs := now - time in
      let diffMins := diffMs / 60000 in
      if diffMins <? 1 then "agora"
      else if diffMins <? 60 then decimal_of_Z diffMins ++ " min atrás"
      else if diffMins <? 1440 then decimal_of_Z (diffMins / 60) ++ "h atrás"
      else decimal_of_Z (diffMins / 1440) ++ "d atrás"
  end.

End Common.


(** ** common.js: the validation helpers *)

Section Validation.

Variable parseFloat : option string -> number.

(** [validateNumber(value, min, max)]; a bound that is not given is
    [None]. *)
Definition validateNumber (value : option string) (min max : option number)
  : bool :=
  let num := parseFloat value in
  if is_nan num then false
  else if match min with
          | Some min => less num min
          | None => false
          end then false
  else if match max with
          | Some max => less max num
          | None => false
          end then false
  else true.

Definition validatePrice (price : option string) : bool :=
  validateNumber price (Some 0%float) None.

Definition validatePercentage (percentage : option string) : bool :=
  validateNumber percentage (Some 0%float) (Some 100%float).

End Validation.


(** ** More sample data *)

(** Weights of which one is not a number. *)
Definition nan_weights : IndicatorWeights :=
  [ ("rsi", 0.5); ("macd", nan); ("bb", 0.9); ("stoch", 0.2);
    ("sma_cross", 0.1); ("volume", 0.1) ]%float.

(** A page whose document has none of the form controls. *)
Definition empty_form : Form := form_of [] [].

Definition empty_page : Page :=
  {| manager := sample_manager; form := empty_form |}.

Definition success_reply : FetchReply :=
  Replied {| status := Some "success"; message := Some "ok" |}.

Definition sample_total_display : TotalDisplay :=
  {| total_textContent := "0%"; total_className := "text-danger" |}.

(** Clicks on every action button, each followed by the confirm button. *)
Definition sample_clicks : list (Button * FetchReply) :=
  [ (reset_signals_btn, success_reply); (confirm_action_btn, success_reply);
    (cleanup_now_btn, success_reply); (confirm_action_btn, success_reply);
    (backup_now_btn, NetworkFailure); (confirm_action_btn, NetworkFailure);
    (restart_analyzers_btn, success_reply); (force_save_btn, success_reply);
    (confirm_action_btn, success_reply) ].

(** Three polling cycles: duplicated signals, a failure, duplicated signals
    again. *)
Definition sample_polls : list (SignalsReply * Z) :=
  [ (SignalsResult true (Some sample_data), 40000);
    (SignalsFetchRejected, 50000);
    (SignalsResult true (Some sample_data), 60000) ].


(** * Properties *)

(** ** Order on numbers *)

Lemma compare_cont_swap (m1 m2 : positive) :
  Pos.compare_cont Eq m2 m1 = CompOpp (Pos.compare_cont Eq m1 m2).
Proof. rewrite Pos.compare_cont_antisym. reflexivity. Qed.

Lemma SFcompare_swap (x y : spec_float) :
  SFcompare y x = option_map CompOpp (SFcompare x y).
Proof.
  destruct x as [sx | sx | | sx mx ex], y as [sy | sy | | sy my ey];
    simpl; try reflexivity;
    try (destruct sx; reflexivity);
    try (destruct sy; reflexivity);
    try (destruct sx, sy; reflexivity).
  rewrite (Z.compare_antisym ex ey), (compare_cont_swap mx my).
  destruct sx, sy; simpl; try reflexivity;
    destruct (ex ?= ey); simpl; try reflexivity.
Qed.

Lemma leb_true_ltb_false (a b : float) :
  (a <=? b)%float = true -> (b <? a)%float = false.
Proof.
  rewrite leb_spec, ltb_spec. unfold SFleb, SFltb.
  rewrite (SFcompare_swap (Prim2SF a) (Prim2SF b)).
  destruct (SFcompare (Prim2SF a) (Prim2SF b)) as [[ | | ] | ];
    simpl; congruence.
Qed.

(** ** validateConfig *)



Lemma validateConfig_trading (config : Config) (t : Trading)
      (ta : TaParams) (weights : IndicatorWeights) :
  trading config = Some t ->
  ta_params t = Some ta ->
  indicator_weights t = Some weights ->
  validateConfig config =
    Normal {| valid := (List.length (trading_errors ta weights) =? 0)%nat;
              errors := trading_errors ta weights |}.
Proof.
  intros Ht Hta Hw. unfold validateConfig. rewrite Ht. simpl.
  rewrite Hta. simpl. rewrite Hw. reflexivity.
Qed.



Lemma in_push_if (test : bool) (message m : string) (errors : list string) :
  In m errors -> In m (push_if test message errors).
Proof.
  destruct test; simpl; [ | trivial].
  intros H. apply in_or_app. now left.
Qed.

Lemma rsi_error_reported (ta : TaParams) (weights : IndicatorWeights) :
  ge (rsi_oversold ta) (rsi_overbought ta) = true ->
  In rsi_error (trading_errors ta weights).
Proof.
  intros H. unfold trading_errors. rewrite H.
  do 3 apply in_push_if. simpl. now left.
Qed.

(** C10.  A configuration without a [trading] section is valid with no
    error, whatever its other sections hold: no rule is evaluated. *)
Theorem validateConfig_without_trading (config : Config) :
  trading config = None ->
  validateConfig config = Normal {| valid := true; errors := [] |}.
Proof.
  intros Habsent. unfold validateConfig. rewrite Habsent.
  cbn [bind]. reflexivity.
Qed.

Lemma validateConfig_without_trading_sample :
  validateConfig config_without_trading
  = Normal {| valid := true; errors := [] |}.
Proof.
  apply (validateConfig_without_trading config_without_trading).
  reflexivity.
Defined.

(** The RSI pair is validated: with a [trading] section whose RSI oversold
    bound is at or above the overbought bound, the list of errors contains
    the RSI message and the configuration is invalid. *)
Lemma validateConfig_rsi_pair (config : Config) (t : Trading)
      (ta : TaParams) (weights : IndicatorWeights) :
  trading config = Some t ->
  ta_params t = Some ta ->
  indicator_weights t = Some weights ->
  ge (rsi_oversold ta) (rsi_overbought ta) = true ->
  exists v, validateConfig config = Normal v
            /\ valid v = false
            /\ In rsi_error (errors v).
Proof.
  intros Ht Hta Hw Hge.
  pose proof (validateConfig_trading config t ta weights Ht Hta Hw) as Hv.
  eexists. split; [exact Hv | ].
  pose proof (rsi_error_reported ta weights Hge) as Hin.
  split; [ | exact Hin].
  simpl. destruct (trading_errors ta weights); [contradiction | reflexivity].
Qed.

Lemma validateConfig_rsi_pair_sample :
  exists v, validateConfig (config_with crossed_rsi_ta sample_weights)
            = Normal v
            /\ valid v = false
            /\ In rsi_error (errors v).
Proof.
  apply (validateConfig_rsi_pair
           (config_with crossed_rsi_ta sample_weights) _
           crossed_rsi_ta sample_weights eq_refl eq_refl eq_refl).
  reflexivity.
Defined.

(** C2.  The stochastic pair is not validated: a configuration whose
    stochastic oversold bound (80) is above its overbought bound (20), and
    which is otherwise in order, comes back valid with no error; collected
    from the form, it is sent to the server. *)
Theorem validateConfig_ignores_stochastic_pair :
  ge (stoch_oversold crossed_stoch_ta) (stoch_overbought crossed_stoch_ta)
  = true
  /\ validateConfig (config_with crossed_stoch_ta sample_weights)
     = Normal {| valid := true; errors := [] |}
  /\ validateConfig
       (collectFormData decimal_parseInt decimal_parseFloat crossed_stoch_form)
     = Normal {| valid := true; errors := [] |}
  /\ snd (saveSettings decimal_parseInt decimal_parseFloat
                       crossed_stoch_page NetworkFailure)
     = [ showLoading "Salvando configurações...";
         Fetch "/settings/api/save-config" "POST"
           {| request_config :=
                collectFormData decimal_parseInt decimal_parseFloat
                                crossed_stoch_form;
              apply_immediately := true |};
         ConsoleError "[SETTINGS] Erro ao salvar:";
         showError "Erro ao salvar configurações";
         hideLoading ].
Proof. repeat split; vm_compute; reflexivity. Qed.

Example crossed_stoch_form_collected :
  option_map (fun ta => (stoch_oversold ta, stoch_overbought ta))
    (match trading (collectFormData decimal_parseInt decimal_parseFloat
                                    crossed_stoch_form) with
     | Some t => ta_params t
     | None => None
     end)
  = Some (80, 20)%float.
Proof. vm_compute. reflexivity. Qed.

Lemma weight_error_is_weight_sum_error (weights : IndicatorWeights) :
  is_weight_sum_error (weight_error weights) = true.
Proof. reflexivity. Qed.






(** Other weights with the same decimal sum, 0.99, are accepted: the sum
    computed is the number just above 0.99. *)
Example weights_summing_to_99_percent_accepted :
  within_tolerance edge_weights_accepted = true
  /\ binary64_sum (Object_values edge_weights_accepted)
     = 0.9900000000000001%float
  /\ validateConfig (config_with sample_ta edge_weights_accepted)
     = Normal {| valid := true; errors := [] |}.
Proof. repeat split; vm_compute; reflexivity. Qed.

Example binary64_sum_in_order (a b c : number) :
  binary64_sum [a; b; c] = (((0 + a) + b) + c)%float.
Proof. reflexivity. Qed.

(** The scenarios of the specification: weights that sum to 1.0 are
    valid, and weights 0.5, 0.5, 0.1 are reported as 110%. *)
Example weights_summing_to_one :
  validateConfig (config_with sample_ta sample_weights)
  = Normal {| valid := true; errors := [] |}.
Proof. reflexivity. Qed.

Example weights_summing_to_110_percent :
  validateConfig (config_with sample_ta heavy_weights)
  = Normal {| valid := false;
              errors := ["Soma dos pesos deve ser 100% (atual: 110%)"] |}.
Proof. vm_compute. reflexivity. Qed.

(** Weights typed as 0.2, 0.2, 0.2, 0.2, 0.1 and 0.11: the computed sum
    is the number 1.01, its computed distance to 1.0 is above the number
    0.01, and the error is reported. *)
Example weights_summing_to_101_percent :
  (0.01 <? Math_abs (totalWeight boundary_weights - 1.0))%float = true
  /\ validateConfig (config_with sample_ta boundary_weights)
     = Normal {| valid := false;
                 errors := ["Soma dos pesos deve ser 100% (atual: 101%)"] |}.
Proof. split; vm_compute; reflexivity. Qed.

(** ** saveSettings *)

Section SettingsProperties.

Variable parseInt : option string -> number.
Variable parseFloat : option string -> number.

Local Notation "'collect'" := (collectFormData parseInt parseFloat).
Local Notation "'save'" := (saveSettings parseInt parseFloat).
Local Notation "'saved'" := (saved_page parseInt parseFloat).


Lemma saveSettings_page (p : Page) (reply : FetchReply) :
  fst (save p reply) = p
  \/ (save_failed reply = false
      /\ (exists v, validateConfig (collect (form p)) = Normal v
                    /\ valid v = true)
      /\ fst (save p reply) = saved p).
Proof.
  unfold saveSettings, save_try.
  destruct (validateConfig (collect (form p))) as [v | e] eqn:Hv;
    [ | left; reflexivity].
  destruct (valid v) eqn:Hvalid; cbn [negb]; [ | left; reflexivity].
  destruct reply as [ | | data]; try (left; reflexivity).
  destruct (is_success data) eqn:Hs; [ | left; reflexivity].
  right. repeat split.
  - cbn [save_failed]. rewrite Hs. reflexivity.
  - exists v. split; [reflexivity | exact Hvalid].
Qed.

Lemma saveSettings_failed (p : Page) (reply : FetchReply) :
  save_failed reply = true -> fst (save p reply) = p.
Proof.
  intros Hf. destruct (saveSettings_page p reply) as [H | [H _]];
    [exact H | congruence].
Qed.

(** C7.  A save that fails (no response, an unreadable one, or a status
    other than success) leaves the page as it was: the unsaved-changes flag
    stays set and the saved configuration and the form keep the user's last
    edit.  Whatever the answer, the page changes only when the configuration
    validated and the server answered success, and then the configuration
    is replaced and the flag cleared. *)
Theorem saveSettings_failure_keeps_edits (p : Page) (reply : FetchReply) :
  unsavedChanges (manager p) = true ->
  save_failed reply = true ->
  let p' := fst (save p reply) in
  unsavedChanges (manager p') = true
  /\ currentConfig (manager p') = currentConfig (manager p)
  /\ form p' = form p
  /\ collect (form p') = collect (form p)
  /\ (forall r : FetchReply,
        fst (save p r) = p
        \/ (save_failed r = false
            /\ (exists v, validateConfig (collect (form p)) = Normal v
                          /\ valid v = true)
            /\ fst (save p r) = saved p)).
Proof.
  intros Hdirty Hfail p'.
  assert (Hp : p' = p) by (apply saveSettings_failed; exact Hfail).
  rewrite Hp. repeat split; try assumption.
  intros r. apply saveSettings_page.
Qed.

End SettingsProperties.


Lemma saveSettings_failure_keeps_edits_sample :
  let p' := fst (saveSettings decimal_parseInt decimal_parseFloat
                              sample_page NetworkFailure) in
  unsavedChanges (manager p') = true
  /\ currentConfig (manager p') = currentConfig (manager sample_page)
  /\ form p' = form sample_page
  /\ collectFormData decimal_parseInt decimal_parseFloat (form p')
     = collectFormData decimal_parseInt decimal_parseFloat (form sample_page)
  /\ (forall r : FetchReply,
        fst (saveSettings decimal_parseInt decimal_parseFloat sample_page r)
        = sample_page
        \/ (save_failed r = false
            /\ (exists v,
                  validateConfig
                    (collectFormData decimal_parseInt decimal_parseFloat
                                     (form sample_page)) = Normal v
                  /\ valid v = true)
            /\ fst (saveSettings decimal_parseInt decimal_parseFloat
                                 sample_page r)
               = saved_page decimal_parseInt decimal_parseFloat sample_page)).
Proof.
  apply (saveSettings_failure_keeps_edits
           decimal_parseInt decimal_parseFloat sample_page NetworkFailure);
    reflexivity.
Defined.

(** A rejected save on the sample page: the request goes out, the server's
    message is shown, and nothing changes. *)
Example saveSettings_rejected_sample :
  saveSettings decimal_parseInt decimal_parseFloat sample_page
    (Replied {| status := Some "error"; message := Some "disk full" |})
  = (sample_page,
     [ showLoading "Salvando configurações...";
       Fetch "/settings/api/save-config" "POST"
         {| request_config :=
              collectFormData decimal_parseInt decimal_parseFloat sample_form;
            apply_immediately := true |};
       showError "Erro ao salvar: disk full";
       hideLoading ]).
Proof. vm_compute. reflexivity. Qed.

Example saveSettings_accepted_sample :
  fst (saveSettings decimal_parseInt decimal_parseFloat sample_page
         (Replied {| status := Some "success"; message := None |}))
  = saved_page decimal_parseInt decimal_parseFloat sample_page
  /\ unsavedChanges
       (manager (saved_page decimal_parseInt decimal_parseFloat sample_page))
     = false
  /\ other_keys
       (currentConfig
          (manager (saved_page decimal_parseInt decimal_parseFloat
                               sample_page)))
     = [("version", "2.0.0")].
Proof. repeat split; vm_compute; reflexivity. Qed.

(** ** removeDuplicateSignals *)

Lemma strict_equal_eq (a b : SignalId) : strict_equal a b = true <-> a = b.
Proof.
  destruct a as [ | n | s], b as [ | m | t]; simpl;
    split; intros H; try reflexivity; try discriminate.
  - apply Z.eqb_eq in H. now subst.
  - injection H as ->. apply Z.eqb_refl.
  - apply String.eqb_eq in H. now subst.
  - injection H as ->. apply String.eqb_refl.
Qed.

Lemma strict_equal_refl (a : SignalId) : strict_equal a a = true.
Proof. now apply strict_equal_eq. Qed.

Lemma same_id_eq (x s : Signal) : same_id x s = true <-> id s = id x.
Proof. unfold same_id. apply strict_equal_eq. Qed.

Lemma same_id_refl (x : Signal) : same_id x x = true.
Proof. now apply same_id_eq. Qed.

Lemma same_id_false (x s : Signal) : same_id x s = false <-> id s <> id x.
Proof.
  split.
  - intros H E. apply same_id_eq in E. congruence.
  - intros H. destruct (same_id x s) eqn:E; [ | reflexivity].
    apply same_id_eq in E. contradiction.
Qed.

(** Two signals with one id select the same entries. *)
Lemma same_id_ext (x y s : Signal) :
  id x = id y -> same_id x s = same_id y s.
Proof. unfold same_id. now intros ->. Qed.

Section FindIndex.

Context {A : Type} (p : A -> bool).

Lemma findIndex_from_skip (pre rest : list A) (i : Z) :
  existsb p pre = false ->
  findIndex_from p (pre ++ rest) i
  = findIndex_from p rest (i + Z.of_nat (List.length pre)).
Proof.
  revert i. induction pre as [ | x pre IH]; intros i Hpre.
  - simpl. f_equal. lia.
  - simpl in Hpre. apply orb_false_iff in Hpre as [Hx Hpre].
    cbn [app findIndex_from]. rewrite Hx, (IH (i + 1) Hpre).
    f_equal. cbn [List.length]. lia.
Qed.

Lemma findIndex_from_within (pre rest : list A) (i : Z) :
  existsb p pre = true ->
  i <= findIndex_from p (pre ++ rest) i < i + Z.of_nat (List.length pre).
Proof.
  revert i. induction pre as [ | x pre IH]; intros i Hpre.
  - discriminate.
  - cbn [app findIndex_from List.length]. destruct (p x) eqn:Hx.
    + lia.
    + simpl in Hpre. rewrite Hx in Hpre. specialize (IH (i + 1) Hpre). lia.
Qed.

End FindIndex.

(** The filter of [removeDuplicateSignals], started in the middle of the
    list, keeps the first occurrences. *)
Lemma filter_from_first_occurrences (whole suf pre : list Signal) :
  whole = (pre ++ suf)%list ->
  filter_from
    (fun signal index =>
       index =? findIndex (fun s => strict_equal (id s) (id signal)) whole)
    suf (Z.of_nat (List.length pre))
  = first_occurrences pre suf.
Proof.
  revert pre. induction suf as [ | x rest IH]; intros pre Hwhole.
  - reflexivity.
  - cbn [filter_from first_occurrences].
    assert (Hnext : Z.of_nat (List.length pre) + 1
                    = Z.of_nat (List.length (pre ++ [x]))).
    { rewrite length_app. cbn [List.length]. lia. }
    rewrite Hnext.
    rewrite (IH (pre ++ [x])%list)
      by (rewrite Hwhole, <- app_assoc; reflexivity).
    change (fun s => strict_equal (id s) (id x)) with (same_id x).
    destruct (existsb (same_id x) pre) eqn:Hpre.
    + pose proof (findIndex_from_within (same_id x) pre (x :: rest) 0 Hpre)
        as Hin.
      unfold findIndex. rewrite Hwhole.
      destruct (Z.eqb_spec (Z.of_nat (List.length pre))
                  (findIndex_from (same_id x) (pre ++ x :: rest) 0));
        [lia | reflexivity].
    + unfold findIndex. rewrite Hwhole.
      rewrite (findIndex_from_skip (same_id x) pre (x :: rest) 0 Hpre).
      cbn [findIndex_from]. rewrite same_id_refl.
      rewrite Z.add_0_l, Z.eqb_refl. reflexivity.
Qed.

Lemma removeDuplicateSignals_first_occurrences (signals : list Signal) :
  removeDuplicateSignals signals = first_occurrences [] signals.
Proof.
  unfold removeDuplicateSignals, filter_indexed.
  apply (filter_from_first_occurrences signals signals []). reflexivity.
Qed.

Lemma existsb_same_id_false (x : Signal) (l : list Signal) :
  existsb (same_id x) l = false <-> ~ In (id x) (map id l).
Proof.
  induction l as [ | y l IH]; simpl.
  - split; [tauto | reflexivity].
  - rewrite orb_false_iff, IH, same_id_false. tauto.
Qed.

Lemma find_same_id_skip (u : Signal) (pre suf : list Signal) :
  existsb (same_id u) pre = false ->
  find (same_id u) (pre ++ suf) = find (same_id u) suf.
Proof.
  induction pre as [ | y pre IH]; simpl; [reflexivity | ].
  intros H. apply orb_false_iff in H as [Hy Hpre].
  rewrite Hy. now apply IH.
Qed.

(** A signal that is kept has no earlier entry with its id, and is the
    first entry with its id in what follows. *)
Lemma first_occurrences_first (suf pre : list Signal) (u : Signal) :
  In u (first_occurrences pre suf) ->
  existsb (same_id u) pre = false /\ find (same_id u) suf = Some u.
Proof.
  revert pre. induction suf as [ | x rest IH]; intros pre Hin.
  - contradiction.
  - cbn [first_occurrences] in Hin.
    assert (Hrest : In u (first_occurrences (pre ++ [x]) rest) ->
                    existsb (same_id u) pre = false
                    /\ find (same_id u) (x :: rest) = Some u).
    { intros H. destruct (IH _ H) as [Hpre Hfind].
      rewrite existsb_app in Hpre. apply orb_false_iff in Hpre as [Hpre Hx].
      simpl in Hx. rewrite orb_false_r in Hx.
      split; [exact Hpre | ]. simpl. now rewrite Hx. }
    destruct (existsb (same_id x) pre) eqn:Hx.
    + now apply Hrest.
    + destruct Hin as [<- | Hin]; [ | now apply Hrest].
      split; [exact Hx | ]. simpl. now rewrite same_id_refl.
Qed.

Lemma first_occurrences_NoDup (suf pre : list Signal) :
  NoDup (map id (first_occurrences pre suf)).
Proof.
  revert pre. induction suf as [ | x rest IH]; intros pre.
  - constructor.
  - cbn [first_occurrences].
    destruct (existsb (same_id x) pre); [apply IH | ].
    cbn [map]. constructor; [ | apply IH].
    intros Hin. apply in_map_iff in Hin as [u [Hid Hu]].
    apply first_occurrences_first in Hu as [Hpre _].
    rewrite existsb_app in Hpre. apply orb_false_iff in Hpre as [_ Hx].
    simpl in Hx. rewrite orb_false_r in Hx.
    apply same_id_false in Hx. congruence.
Qed.

(** Every id that is new after [pre] has an entry. *)
Lemma first_occurrences_complete (suf pre : list Signal) (s : Signal) :
  In s suf ->
  existsb (same_id s) pre = false ->
  exists u, In u (first_occurrences pre suf) /\ id u = id s.
Proof.
  revert pre. induction suf as [ | x rest IH]; intros pre Hin Hpre.
  - contradiction.
  - cbn [first_occurrences]. destruct Hin as [-> | Hin].
    + rewrite Hpre. exists s. split; [now left | reflexivity].
    + destruct (same_id s x) eqn:Hsx.
      * apply same_id_eq in Hsx.
        assert (Hx : existsb (same_id x) pre = false).
        { apply existsb_same_id_false. rewrite Hsx.
          now apply existsb_same_id_false. }
        rewrite Hx. exists x. split; [now left | exact Hsx].
      * assert (Hpre' : existsb (same_id s) (pre ++ [x]) = false).
        { rewrite existsb_app, Hpre. simpl. now rewrite Hsx. }
        destruct (IH _ Hin Hpre') as [u [Hu Hid]].
        exists u. split; [ | exact Hid].
        destruct (existsb (same_id x) pre); [exact Hu | now right].
Qed.

Lemma entries_for_absent (s : Signal) (l : list Signal) :
  ~ In (id s) (map id l) -> entries_for s l = 0%nat.
Proof.
  unfold entries_for. induction l as [ | y l IH]; simpl; [reflexivity | ].
  intros H. destruct (same_id s y) eqn:E.
  - apply same_id_eq in E. tauto.
  - apply IH. tauto.
Qed.

Lemma entries_for_distinct (s : Signal) (l : list Signal) :
  NoDup (map id l) ->
  (entries_for s l <= 1)%nat
  /\ (In (id s) (map id l) -> entries_for s l = 1%nat).
Proof.
  induction l as [ | y l IH]; intros Hnd.
  - split; [unfold entries_for; simpl; lia | contradiction].
  - cbn [map] in Hnd. apply NoDup_cons_iff in Hnd as [Hy Hnd].
    specialize (IH Hnd) as [IHle IHin].
    unfold entries_for in *. cbn [filter map].
    destruct (same_id s y) eqn:E.
    + apply same_id_eq in E. rewrite E in Hy.
      pose proof (entries_for_absent s l Hy) as H0.
      unfold entries_for in H0. cbn [List.length]. rewrite H0.
      split; [lia | reflexivity].
    + apply same_id_false in E. split; [exact IHle | ].
      intros [H | H]; [contradiction | now apply IHin].
Qed.

(** The properties of the deduplicated list. *)
Lemma removeDuplicateSignals_NoDup (signals : list Signal) :
  NoDup (map id (removeDuplicateSignals signals)).
Proof.
  rewrite removeDuplicateSignals_first_occurrences.
  apply first_occurrences_NoDup.
Qed.

Lemma removeDuplicateSignals_first (signals : list Signal) (u : Signal) :
  In u (removeDuplicateSignals signals) ->
  find (same_id u) signals = Some u.
Proof.
  rewrite removeDuplicateSignals_first_occurrences. intros H.
  now apply first_occurrences_first in H.
Qed.

Lemma removeDuplicateSignals_ids (signals : list Signal) :
  incl (map id signals) (map id (removeDuplicateSignals signals)).
Proof.
  intros i Hi. apply in_map_iff in Hi as [s [<- Hs]].
  rewrite removeDuplicateSignals_first_occurrences.
  destruct (first_occurrences_complete signals [] s Hs eq_refl)
    as [u [Hu Hid]].
  rewrite <- Hid. now apply in_map.
Qed.

Lemma removeDuplicateSignals_incl (signals : list Signal) :
  incl (removeDuplicateSignals signals) signals.
Proof.
  intros u Hu. apply removeDuplicateSignals_first in Hu.
  now apply find_some in Hu.
Qed.



(** ** The sort by creation time *)

Lemma sort_insert_Permutation {A : Type} (compare : A -> A -> Order)
      (x : A) (l : list A) :
  Permutation (sort_insert compare x l) (x :: l).
Proof.
  induction l as [ | y l IH]; simpl.
  - apply Permutation_refl.
  - destruct (SortCompare compare x y <=? 0).
    + apply Permutation_refl.
    + eapply perm_trans; [apply perm_skip, IH | apply perm_swap].
Qed.

Lemma Array_sort_Permutation {A : Type} (compare : A -> A -> Order)
      (l : list A) :
  Permutation (Array_sort compare l) l.
Proof.
  induction l as [ | x l IH]; simpl.
  - apply perm_nil.
  - eapply perm_trans; [apply sort_insert_Permutation | ].
    now apply perm_skip.
Qed.

(** When the comparator puts [x] after [y], it does not put [y] after
    [x], with or without dates. *)
Lemma by_created_desc_antisym (x y : Signal) :
  0 < SortCompare by_created_desc x y ->
  SortCompare by_created_desc y x <= 0.
Proof.
  unfold SortCompare, by_created_desc, Date_minus.
  destruct (created_at x), (created_at y); simpl; lia.
Qed.

Lemma sort_insert_in_order (x : Signal) (l : list Signal) :
  Sorted in_order l ->
  Sorted in_order (sort_insert by_created_desc x l).
Proof.
  induction l as [ | y l IH]; intros Hs; simpl.
  - repeat constructor.
  - destruct (Z.leb_spec (SortCompare by_created_desc x y) 0) as [Hle | Hgt].
    + constructor; [exact Hs | ]. constructor. exact Hle.
    + apply Sorted_inv in Hs as [Hl Hhd].
      constructor; [now apply IH | ].
      destruct l as [ | z l]; simpl.
      * constructor. now apply by_created_desc_antisym.
      * destruct (SortCompare by_created_desc x z <=? 0).
        -- constructor. now apply by_created_desc_antisym.
        -- constructor. now inversion Hhd.
Qed.

(** In the sorted array no element compares after its successor, whatever
    the dates. *)
Lemma Array_sort_in_order (l : list Signal) :
  Sorted in_order (Array_sort by_created_desc l).
Proof.
  induction l as [ | x l IH]; simpl.
  - constructor.
  - now apply sort_insert_in_order.
Qed.



Lemma forallb_dated (l : list Signal) :
  forallb has_date l = true -> Forall dated l.
Proof. intros H. apply Forall_forall. now apply forallb_forall. Qed.

Lemma in_order_created_after (a b : Signal) :
  dated a -> dated b -> in_order a b -> created_after a b.
Proof.
  unfold dated, has_date, in_order, SortCompare, by_created_desc,
    Date_minus, created_after.
  destruct (created_at a), (created_at b); simpl; try discriminate.
  intros _ _ H. lia.
Qed.

Lemma created_after_trans : Relations_1.Transitive created_after.
Proof.
  intros a b c. unfold created_after.
  destruct (created_at a), (created_at b), (created_at c);
    try contradiction; lia.
Qed.

Lemma Sorted_dated (l : list Signal) :
  Forall dated l -> Sorted in_order l -> Sorted created_after l.
Proof.
  intros Hd Hs. induction Hs as [ | x l Hs IH Hhd]; [constructor | ].
  apply Forall_cons_iff in Hd as [Hx Hl].
  constructor; [now apply IH | ].
  destruct Hhd as [ | y l' Hxy]; constructor.
  apply Forall_cons_iff in Hl as [Hy _].
  now apply in_order_created_after.
Qed.

(** With valid dates the comparator is consistent and the array comes out
    most recent first. *)
Lemma Array_sort_Sorted (l : list Signal) :
  Forall dated l ->
  Sorted created_after (Array_sort by_created_desc l).
Proof.
  intros Hd. apply Sorted_dated; [ | apply Array_sort_in_order].
  apply (Permutation_Forall
           (Permutation_sym (Array_sort_Permutation by_created_desc l))).
  exact Hd.
Qed.

Lemma Array_sort_StronglySorted (l : list Signal) :
  Forall dated l ->
  StronglySorted created_after (Array_sort by_created_desc l).
Proof.
  intros Hd. apply Sorted_StronglySorted;
    [exact created_after_trans | now apply Array_sort_Sorted].
Qed.

Lemma StronglySorted_app_inv {A : Type} (R : A -> A -> Prop)
      (l1 l2 : list A) :
  StronglySorted R (l1 ++ l2) ->
  StronglySorted R l1
  /\ (forall a b, In a l1 -> In b l2 -> R a b).
Proof.
  induction l1 as [ | x l1 IH]; simpl; intros Hs.
  - split; [constructor | contradiction].
  - apply StronglySorted_inv in Hs as [Hs Hall].
    destruct (IH Hs) as [Hs1 Hcross].
    apply Forall_app in Hall as [Hall1 Hall2].
    split; [now constructor | ].
    intros a b [<- | Ha] Hb.
    + rewrite Forall_forall in Hall2. now apply Hall2.
    + now apply Hcross.
Qed.

(** ** The rows of the table *)

Lemma reconcileSignals_split (signals : list Signal) :
  Array_sort by_created_desc (removeDuplicateSignals signals)
  = (reconcileSignals signals
       ++ skipn 20 (Array_sort by_created_desc
                      (removeDuplicateSignals signals)))%list.
Proof. unfold reconcileSignals, slice0. now rewrite firstn_skipn. Qed.

Lemma reconcileSignals_incl (signals : list Signal) :
  incl (reconcileSignals signals) (removeDuplicateSignals signals).
Proof.
  intros u Hu.
  eapply Permutation_in; [apply Array_sort_Permutation | ].
  rewrite reconcileSignals_split. apply in_or_app. now left.
Qed.

Lemma reconcileSignals_NoDup (signals : list Signal) :
  NoDup (map id (reconcileSignals signals)).
Proof.
  pose proof (removeDuplicateSignals_NoDup signals) as Hnd.
  apply (Permutation_NoDup
           (Permutation_map id
              (Permutation_sym
                 (Array_sort_Permutation by_created_desc
                    (removeDuplicateSignals signals))))) in Hnd.
  rewrite reconcileSignals_split, map_app in Hnd.
  now apply NoDup_app_remove_r in Hnd.
Qed.


Lemma reconcileSignals_StronglySorted (signals : list Signal) :
  Forall dated (removeDuplicateSignals signals) ->
  StronglySorted created_after (reconcileSignals signals)
  /\ (forall r s,
        In r (reconcileSignals signals) ->
        In s (skipn 20 (Array_sort by_created_desc
                          (removeDuplicateSignals signals))) ->
        created_after r s).
Proof.
  intros Hd. apply StronglySorted_app_inv.
  rewrite <- reconcileSignals_split.
  now apply Array_sort_StronglySorted.
Qed.

Lemma reconcileSignals_length (signals : list Signal) :
  List.length (reconcileSignals signals)
  = Nat.min 20 (List.length (removeDuplicateSignals signals)).
Proof.
  unfold reconcileSignals, slice0. rewrite length_firstn.
  now rewrite (Permutation_length (Array_sort_Permutation _ _)).
Qed.

Lemma displaySignalsTable_rows (d : Dashboard) (body : TableBody)
      (signals : list Signal) :
  signals_table_body d = Some body ->
  signals <> [] ->
  signals_table_body (displaySignalsTable d signals)
  = Some (Rows (reconcileSignals signals)).
Proof.
  intros Hbody Hne. unfold displaySignalsTable. rewrite Hbody.
  destruct signals; [contradiction | reflexivity].
Qed.

(** C4.  The deduplicated list has exactly one entry for each id of the
    incoming list, and that entry is the first one with this id in the
    incoming order.  The rows of the table are taken from it: no two rows
    share an id, every row is the first incoming entry with its id, and
    when at most 20 distinct ids arrive each of them has exactly one row. *)
Theorem removeDuplicateSignals_first_wins (signals : list Signal) :
  let unique := removeDuplicateSignals signals in
  let rows := reconcileSignals signals in
  (forall s, In s signals -> entries_for s unique = 1%nat)
  /\ (forall u, In u unique -> find (same_id u) signals = Some u)
  /\ (forall s, In s signals -> (entries_for s rows <= 1)%nat)
  /\ (forall u, In u rows -> find (same_id u) signals = Some u)
  /\ ((List.length unique <= 20)%nat ->
      forall s, In s signals -> entries_for s rows = 1%nat)
  /\ (forall d body,
        signals_table_body d = Some body ->
        signals <> [] ->
        signals_table_body (displaySignalsTable d signals) = Some (Rows rows)).
Proof.
  intros unique rows.
  assert (Hone : forall s, In s signals -> entries_for s unique = 1%nat).
  { intros s Hs.
    apply (entries_for_distinct s unique (removeDuplicateSignals_NoDup _)).
    apply removeDuplicateSignals_ids. now apply in_map. }
  split; [exact Hone | ].
  split; [intros u; apply removeDuplicateSignals_first | ].
  split.
  { intros s _.
    apply (entries_for_distinct s rows (reconcileSignals_NoDup _)). }
  split.
  { intros u Hu. apply removeDuplicateSignals_first.
    now apply reconcileSignals_incl. }
  split.
  { intros Hlen s Hs.
    assert (Hrows : rows = Array_sort by_created_desc unique).
    { unfold rows, reconcileSignals, slice0. apply firstn_all2.
      now rewrite (Permutation_length (Array_sort_Permutation _ _)). }
    apply (entries_for_distinct s rows (reconcileSignals_NoDup _)).
    rewrite Hrows.
    apply (Permutation_in _
             (Permutation_map id
                (Permutation_sym (Array_sort_Permutation _ unique)))).
    apply removeDuplicateSignals_ids. now apply in_map. }
  intros d body. apply displaySignalsTable_rows.
Qed.

(** The scenario of the specification: of the two entries with id 1 the
    first is kept, with its own fields. *)
Example removeDuplicateSignals_scenario :
  removeDuplicateSignals scenario_signals = [signal_1; signal_2]
  /\ reconcileSignals scenario_signals = [signal_2; signal_1].
Proof. split; reflexivity. Qed.

(** X15.  When more than 20 distinct ids arrive and the first occurrence
    of every id carries a valid date, the table shows exactly 20 rows:
    deduplicated signals with pairwise distinct ids, the most recent
    first, and none of the deduplicated signals left out was created after
    one that is shown. *)
Theorem displaySignalsTable_twenty_most_recent
        (d : Dashboard) (body : TableBody)
        (signals : list Signal) (ids : list SignalId) :
  signals_table_body d = Some body ->
  NoDup ids ->
  incl ids (map id signals) ->
  (20 < List.length ids)%nat ->
  forallb has_date (removeDuplicateSignals signals) = true ->
  exists rows,
    signals_table_body (displaySignalsTable d signals) = Some (Rows rows)
    /\ List.length rows = 20%nat
    /\ StronglySorted created_after rows
    /\ NoDup (map id rows)
    /\ incl rows (removeDuplicateSignals signals)
    /\ (forall r s,
          In r rows ->
          In s (removeDuplicateSignals signals) ->
          ~ In s rows ->
          created_after r s).
Proof.
  intros Hbody Hnd Hincl Hlen Hdated.
  apply forallb_dated in Hdated.
  assert (Hunique : (20 < List.length (removeDuplicateSignals signals))%nat).
  { rewrite <- (length_map id).
    eapply Nat.lt_le_trans; [exact Hlen | ].
    apply NoDup_incl_length; [exact Hnd | ].
    intros i Hi. now apply removeDuplicateSignals_ids, Hincl. }
  assert (Hne : signals <> []).
  { intros ->. simpl in Hunique. lia. }
  exists (reconcileSignals signals).
  split; [now apply (displaySignalsTable_rows d body) | ].
  split; [rewrite reconcileSignals_length; lia | ].
  destruct (reconcileSignals_StronglySorted signals Hdated)
    as [Hsorted Hcross].
  split; [exact Hsorted | ].
  split; [apply reconcileSignals_NoDup | ].
  split; [apply reconcileSignals_incl | ].
  intros r s Hr Hs Hnot.
  apply (Permutation_in _
           (Permutation_sym (Array_sort_Permutation by_created_desc _)))
    in Hs.
  rewrite reconcileSignals_split in Hs.
  apply in_app_or in Hs as [Hs | Hs]; [contradiction | ].
  exact (Hcross r s Hr Hs).
Qed.

Lemma numbered_ids_NoDup (n : nat) :
  NoDup (map id (map numbered_signal (seq 1 n))).
Proof.
  rewrite map_map. apply NoDup_map_NoDup_ForallPairs; [ | apply seq_NoDup].
  intros a b _ _ H. simpl in H. injection H as H. lia.
Qed.

Lemma displaySignalsTable_twenty_most_recent_sample :
  exists rows,
    signals_table_body (displaySignalsTable sample_dashboard
                                            twenty_five_signals)
    = Some (Rows rows)
    /\ List.length rows = 20%nat
    /\ StronglySorted created_after rows
    /\ NoDup (map id rows)
    /\ incl rows (removeDuplicateSignals twenty_five_signals)
    /\ (forall r s,
          In r rows ->
          In s (removeDuplicateSignals twenty_five_signals) ->
          ~ In s rows ->
          created_after r s).
Proof.
  apply (displaySignalsTable_twenty_most_recent
           sample_dashboard NoSignalsNotice twenty_five_signals
           (map id twenty_five_signals)).
  - reflexivity.
  - apply numbered_ids_NoDup.
  - apply incl_refl.
  - vm_compute. lia.
  - vm_compute. reflexivity.
Defined.

(** C5.  A signal without a creation date breaks the order of the table.
    Twenty-one signals arrive with distinct ids: the first created at time
    1000, the second without a date, the others created at times 21000
    down to 3000.  Where the second signal is compared the comparator
    answers NaN, no signal compares before the one in front of it, and the
    sort leaves the array as it arrived.  The table shows the signals with
    ids 1 to 20 in the order of arrival: the oldest signal of all is the
    first row, above the most recent one, and the signal with id 21,
    created after it, is left out. *)
Theorem displaySignalsTable_undated_signal :
  List.length (removeDuplicateSignals signals_with_undated) = 21%nat
  /\ by_created_desc signal_without_date oldest_signal = OrderNaN
  /\ forallb (Z.leb 0) (compared_with_previous signals_with_undated) = true
  /\ Array_sort by_created_desc (removeDuplicateSignals signals_with_undated)
     = signals_with_undated
  /\ signals_table_body
       (displaySignalsTable sample_dashboard signals_with_undated)
     = Some (Rows (firstn 20 signals_with_undated))
  /\ map id (reconcileSignals signals_with_undated)
     = map (fun n => IdNumber (Z.of_nat n)) (seq 1 20)
  /\ map created_at (firstn 3 (reconcileSignals signals_with_undated))
     = [ValidDate 1000; InvalidDate; ValidDate 21000]
  /\ map (fun s => (id s, created_at s)) (skipn 20 signals_with_undated)
     = [(IdNumber 21, ValidDate 3000)].
Proof. repeat split; vm_compute; reflexivity. Qed.

(** Of 25 signals, ids 1 to 25 from oldest to newest, the rows are those
    with ids 25 down to 6. *)
Example twenty_five_signals_rows :
  map id (reconcileSignals twenty_five_signals)
  = map (fun n => IdNumber (Z.of_nat n)) (rev (seq 6 20)).
Proof. vm_compute. reflexivity. Qed.




(** ** A failed polling cycle *)

(** C6, as stated, fails: after a cycle that drew two rows, a cycle whose
    fetch is rejected leaves the error notice in the table body. *)
Lemma failed_poll_replaces_rows :
  signals_table_body dashboard_after_good_poll
  = Some (Rows [signal_2; signal_1])
  /\ signals_table_body
       (updateSignalsTable dashboard_after_good_poll SignalsFetchRejected
                           50000)
     = Some ErrorNotice.
Proof. split; reflexivity. Qed.

(** C6, amended.  A cycle whose fetch fails writes the error notice into
    the table body when the document has one, whatever was drawn before,
    and logs the failure; the counters, the monitor information and the
    flags of the dashboard stay as they were. *)
Theorem updateSignalsTable_failure_shows_error
        (d : Dashboard) (reply : SignalsReply) (now : Z) :
  fetch_failed reply = true ->
  let d' := updateSignalsTable d reply now in
  signals_table_body d'
  = match signals_table_body d with
    | Some _ => Some ErrorNotice
    | None => None
    end
  /\ active_signals_count d' = active_signals_count d
  /\ total_signals_count d' = total_signals_count d
  /\ signal_monitor_info d' = signal_monitor_info d
  /\ duplicateAlertShown d' = duplicateAlertShown d
  /\ lastSignalMonitorCheck d' = lastSignalMonitorCheck d
  /\ console d'
     = (console d
          ++ ["[DASHBOARD] Erro ao atualizar tabela de sinais:"])%list.
Proof.
  intros Hfail d'.
  assert (Hd : d' = showSignalsError
                      (console_write d
                         "[DASHBOARD] Erro ao atualizar tabela de sinais:")).
  { unfold d', updateSignalsTable.
    destruct reply as [ | code | | success data]; try reflexivity.
    destruct success; [discriminate | reflexivity]. }
  rewrite Hd. unfold showSignalsError, console_write.
  cbn [signals_table_body].
  destruct (signals_table_body d); repeat split; reflexivity.
Qed.

Lemma updateSignalsTable_failure_shows_error_sample :
  let d' := updateSignalsTable dashboard_after_good_poll SignalsFetchRejected
                               50000 in
  signals_table_body d'
  = match signals_table_body dashboard_after_good_poll with
    | Some _ => Some ErrorNotice
    | None => None
    end
  /\ active_signals_count d' = active_signals_count dashboard_after_good_poll
  /\ total_signals_count d' = total_signals_count dashboard_after_good_poll
  /\ signal_monitor_info d' = signal_monitor_info dashboard_after_good_poll
  /\ duplicateAlertShown d' = duplicateAlertShown dashboard_after_good_poll
  /\ lastSignalMonitorCheck d'
     = lastSignalMonitorCheck dashboard_after_good_poll
  /\ console d'
     = (console dashboard_after_good_poll
          ++ ["[DASHBOARD] Erro ao atualizar tabela de sinais:"])%list.
Proof.
  apply (updateSignalsTable_failure_shows_error
           dashboard_after_good_poll SignalsFetchRejected 50000).
  reflexivity.
Defined.

(** ** The system status *)

(** C8.  On a page that has the indicator and the text, [displaySystemStatus]
    returns for every value of [status.health], and shows the state the
    specification gives: HEALTHY is healthy, DEGRADED and PARTIAL are
    warnings, ERROR is an error, and any other value, string or not, is a
    warning with the unknown-status text. *)
Theorem displaySystemStatus_tri_state (className text : string) :
  let shown h :=
    displaySystemStatus {| indicator_className := Some className;
                           text_textContent := Some text |}
                        (Some {| health := h |}) in
  let painted class text :=
    Normal {| indicator_className := Some ("status-indicator " ++ class);
              text_textContent := Some text |} in
  shown (Some "HEALTHY") = painted "status-active" "Sistema saudável"
  /\ shown (Some "DEGRADED") = painted "status-warning" "Sistema com problemas"
  /\ shown (Some "PARTIAL") = painted "status-warning" "Sistema com problemas"
  /\ shown (Some "ERROR") = painted "status-inactive" "Sistema com erros"
  /\ shown None = painted "status-warning" "Status desconhecido"
  /\ (forall s,
        s <> "HEALTHY" -> s <> "DEGRADED" -> s <> "PARTIAL" -> s <> "ERROR" ->
        shown (Some s) = painted "status-warning" "Status desconhecido")
  /\ (forall h,
        exists text',
          shown h = painted (state_class (reconcileHealth_spec h)) text').
Proof.
  intros shown painted. unfold shown, painted.
  repeat (split; [reflexivity | ]).
  split.
  - intros s H1 H2 H3 H4.
    apply String.eqb_neq in H1, H2, H3, H4.
    unfold displaySystemStatus, health_case. cbn [indicator_className
      text_textContent property_of bind health].
    rewrite H1, H2, H3, H4. reflexivity.
  - intros [s | ]; [ | eexists; reflexivity].
    unfold displaySystemStatus, health_case, reconcileHealth_spec.
    cbn [indicator_className text_textContent property_of bind health].
    destruct (String.eqb_spec s "HEALTHY") as [-> | _];
      [eexists; reflexivity | ].
    destruct (String.eqb_spec s "DEGRADED") as [-> | _];
      [eexists; reflexivity | ].
    destruct (String.eqb_spec s "PARTIAL") as [-> | _];
      [eexists; reflexivity | ].
    destruct (String.eqb s "ERROR"); eexists; reflexivity.
Qed.

(** The multi-asset indicator of the dashboard is a different display: it
    has two states, and shows PARTIAL as online and every other value
    besides HEALTHY as offline. *)
Example multi_status_two_states :
  multi_status (HealthBody (Some "HEALTHY"))
  = {| textContent := "Status: Online"; className := "status-text online" |}
  /\ multi_status (HealthBody (Some "PARTIAL"))
     = {| textContent := "Status: Online"; className := "status-text online" |}
  /\ multi_status (HealthBody (Some "DEGRADED"))
     = {| textContent := "Status: Offline";
          className := "status-text offline" |}
  /\ multi_status (HealthBody (Some "ERROR"))
     = {| textContent := "Status: Offline";
          className := "status-text offline" |}.
Proof. repeat split; reflexivity. Qed.

(** * Further properties *)

(** ** More on the order of numbers *)

Lemma Prim2SF_nan : Prim2SF nan = S754_nan.
Proof. reflexivity. Qed.

Lemma SFcompare_nan_r (s : spec_float) : SFcompare s S754_nan = None.
Proof. destruct s; reflexivity. Qed.

Lemma ltb_nan_r (x : float) : (x <? nan)%float = false.
Proof.
  rewrite ltb_spec, Prim2SF_nan. unfold SFltb.
  now rewrite SFcompare_nan_r.
Qed.

Lemma ltb_nan_l (x : float) : (nan <? x)%float = false.
Proof. rewrite ltb_spec, Prim2SF_nan. reflexivity. Qed.

Lemma leb_nan_r (x : float) : (x <=? nan)%float = false.
Proof.
  rewrite leb_spec, Prim2SF_nan. unfold SFleb.
  now rewrite SFcompare_nan_r.
Qed.

Lemma leb_nan_l (x : float) : (nan <=? x)%float = false.
Proof. rewrite leb_spec, Prim2SF_nan. reflexivity. Qed.

Lemma add_nan_r (x : float) : (x + nan)%float = nan.
Proof.
  apply Prim2SF_inj. rewrite add_spec, Prim2SF_nan.
  unfold SF64add, SFadd. destruct (Prim2SF x); reflexivity.
Qed.

Lemma add_nan_l (x : float) : (nan + x)%float = nan.
Proof.
  apply Prim2SF_inj. rewrite add_spec, Prim2SF_nan. reflexivity.
Qed.

Lemma ltb_true_ltb_false (a b : float) :
  (a <? b)%float = true -> (b <? a)%float = false.
Proof.
  rewrite !ltb_spec. unfold SFltb.
  rewrite (SFcompare_swap (Prim2SF a) (Prim2SF b)).
  destruct (SFcompare (Prim2SF a) (Prim2SF b)) as [[ | | ] | ];
    simpl; congruence.
Qed.

Lemma ltb_true_leb_true (a b : float) :
  (a <? b)%float = true -> (a <=? b)%float = true.
Proof.
  rewrite ltb_spec, leb_spec. unfold SFltb, SFleb.
  destruct (SFcompare (Prim2SF a) (Prim2SF b)) as [[ | | ] | ];
    simpl; congruence.
Qed.

Lemma is_nan_false (x : float) : is_nan x = false -> Prim2SF x <> S754_nan.
Proof.
  unfold is_nan. rewrite eqb_spec. intros H E. rewrite E in H. discriminate.
Qed.

Lemma SFcompare_defined (s t : spec_float) :
  s <> S754_nan -> t <> S754_nan -> exists c, SFcompare s t = Some c.
Proof.
  intros Hs Ht.
  destruct s, t; simpl; try congruence; eexists; reflexivity.
Qed.

(** Two numbers, none of them [NaN] and none below the other, are at most
    each other. *)
Lemma not_ltb_leb (a b : float) :
  is_nan a = false -> is_nan b = false ->
  (a <? b)%float = false -> (b <? a)%float = false ->
  (a <=? b)%float = true /\ (b <=? a)%float = true.
Proof.
  intros Ha Hb. apply is_nan_false in Ha, Hb.
  rewrite !ltb_spec, !leb_spec. unfold SFltb, SFleb.
  rewrite (SFcompare_swap (Prim2SF a) (Prim2SF b)).
  destruct (SFcompare_defined _ _ Ha Hb) as [c ->].
  destruct c; simpl; intros; split; congruence.
Qed.

Lemma leb_refl (a : float) : is_nan a = false -> (a <=? a)%float = true.
Proof.
  intros Ha. unfold is_nan in Ha. rewrite eqb_spec in Ha.
  rewrite leb_spec. unfold SFeqb, SFleb in *.
  destruct (SFcompare (Prim2SF a) (Prim2SF a)) as [[ | | ] | ];
    simpl in *; congruence.
Qed.

(** ** Each rule of validateConfig *)

Lemma weight_error_not_pair_error (weights : IndicatorWeights) :
  weight_error weights <> rsi_error
  /\ weight_error weights <> sma_error
  /\ weight_error weights <> ema_error.
Proof.
  pose proof (weight_error_is_weight_sum_error weights) as H.
  repeat split; intros E; rewrite E in H; discriminate.
Qed.

Lemma trading_errors_members (ta : TaParams) (weights : IndicatorWeights) :
  (In rsi_error (trading_errors ta weights)
   <-> ge (rsi_oversold ta) (rsi_overbought ta) = true)
  /\ (In sma_error (trading_errors ta weights)
      <-> ge (sma_short ta) (sma_long ta) = true)
  /\ (In ema_error (trading_errors ta weights)
      <-> ge (ema_short ta) (ema_long ta) = true)
  /\ (In (weight_error weights) (trading_errors ta weights)
      <-> gt (Math_abs (totalWeight weights - 1.0)%float) 0.01%float = true)
  /\ (forall m, In m (trading_errors ta weights) ->
        m = rsi_error \/ m = sma_error \/ m = ema_error
        \/ m = weight_error weights).
Proof.
  destruct (weight_error_not_pair_error weights) as [N1 [N2 N3]].
  unfold trading_errors.
  revert N1 N2 N3. generalize (weight_error weights) as msg.
  intros msg N1 N2 N3.
  assert (D1 : rsi_error <> sma_error) by discriminate.
  assert (D2 : rsi_error <> ema_error) by discriminate.
  assert (D3 : sma_error <> ema_error) by discriminate.
  destruct (ge (rsi_oversold ta) (rsi_overbought ta)),
           (ge (sma_short ta) (sma_long ta)),
           (ge (ema_short ta) (ema_long ta)),
           (gt (Math_abs (totalWeight weights - 1.0)%float) 0.01%float);
    cbn [push_if app In];
    (repeat split;
     [ intuition congruence .. | intros m Hm; intuition (subst; auto) ]).
Qed.

(** X1.  With a [trading] section in place, each of the four messages is in
    the list of errors exactly when its rule is broken, nothing else is in
    the list, and the configuration is valid exactly when no rule is
    broken. *)
Theorem validateConfig_reports_each_violation
        (config : Config) (t : Trading)
        (ta : TaParams) (weights : IndicatorWeights) :
  trading config = Some t ->
  ta_params t = Some ta ->
  indicator_weights t = Some weights ->
  exists v,
    validateConfig config = Normal v
    /\ (In rsi_error (errors v)
        <-> ge (rsi_oversold ta) (rsi_overbought ta) = true)
    /\ (In sma_error (errors v) <-> ge (sma_short ta) (sma_long ta) = true)
    /\ (In ema_error (errors v) <-> ge (ema_short ta) (ema_long ta) = true)
    /\ (In (weight_error weights) (errors v)
        <-> gt (Math_abs (totalWeight weights - 1.0)%float) 0.01%float
            = true)
    /\ (forall m, In m (errors v) ->
          m = rsi_error \/ m = sma_error \/ m = ema_error
          \/ m = weight_error weights)
    /\ (valid v = true
        <-> ge (rsi_oversold ta) (rsi_overbought ta) = false
            /\ ge (sma_short ta) (sma_long ta) = false
            /\ ge (ema_short ta) (ema_long ta) = false
            /\ gt (Math_abs (totalWeight weights - 1.0)%float) 0.01%float
               = false).
Proof.
  intros Ht Hta Hw.
  rewrite (validateConfig_trading config t ta weights Ht Hta Hw).
  eexists. split; [reflexivity | ]. cbn [errors valid].
  destruct (trading_errors_members ta weights)
    as [Hrsi [Hsma [Hema [Hweight Hall]]]].
  repeat (split; [assumption | ]).
  split.
  - intros Hvalid.
    destruct (trading_errors ta weights) as [ | m l] eqn:E;
      [ | discriminate].
    cbn [In] in Hrsi, Hsma, Hema, Hweight.
    repeat split; apply not_true_is_false; tauto.
  - intros [H1 [H2 [H3 H4]]].
    destruct (trading_errors ta weights) as [ | m l] eqn:E;
      [reflexivity | ].
    exfalso. destruct (Hall m (or_introl eq_refl)) as [-> | [-> | [-> | ->]]].
    + assert (ge (rsi_oversold ta) (rsi_overbought ta) = true)
        by (apply Hrsi; now left). congruence.
    + assert (ge (sma_short ta) (sma_long ta) = true)
        by (apply Hsma; now left). congruence.
    + assert (ge (ema_short ta) (ema_long ta) = true)
        by (apply Hema; now left). congruence.
    + assert (gt (Math_abs (totalWeight weights - 1.0)%float) 0.01%float
              = true) by (apply Hweight; now left). congruence.
Qed.

Lemma validateConfig_reports_each_violation_sample :
  exists v,
    validateConfig (config_with crossed_rsi_ta heavy_weights) = Normal v
    /\ (In rsi_error (errors v)
        <-> ge (rsi_oversold crossed_rsi_ta) (rsi_overbought crossed_rsi_ta)
            = true)
    /\ (In sma_error (errors v)
        <-> ge (sma_short crossed_rsi_ta) (sma_long crossed_rsi_ta) = true)
    /\ (In ema_error (errors v)
        <-> ge (ema_short crossed_rsi_ta) (ema_long crossed_rsi_ta) = true)
    /\ (In (weight_error heavy_weights) (errors v)
        <-> gt (Math_abs (totalWeight heavy_weights - 1.0)%float) 0.01%float
            = true)
    /\ (forall m, In m (errors v) ->
          m = rsi_error \/ m = sma_error \/ m = ema_error
          \/ m = weight_error heavy_weights)
    /\ (valid v = true
        <-> ge (rsi_oversold crossed_rsi_ta) (rsi_overbought crossed_rsi_ta)
            = false
            /\ ge (sma_short crossed_rsi_ta) (sma_long crossed_rsi_ta) = false
            /\ ge (ema_short crossed_rsi_ta) (ema_long crossed_rsi_ta) = false
            /\ gt (Math_abs (totalWeight heavy_weights - 1.0)%float)
                  0.01%float
               = false).
Proof.
  apply (validateConfig_reports_each_violation
           (config_with crossed_rsi_ta heavy_weights) _
           crossed_rsi_ta heavy_weights eq_refl eq_refl eq_refl).
Defined.

(** ** Values that are not numbers *)

Lemma fold_add_from_nan (l : list float) :
  fold_left (fun sum w => (sum + w)%float) l nan = nan.
Proof.
  induction l as [ | x l IH]; [reflexivity | ].
  cbn [fold_left]. now rewrite add_nan_l.
Qed.

Lemma fold_add_nan (l : list float) (a : float) :
  In nan l -> fold_left (fun sum w => (sum + w)%float) l a = nan.
Proof.
  revert a. induction l as [ | x l IH]; intros a Hin; [contradiction | ].
  cbn [fold_left]. destruct Hin as [-> | Hin].
  - rewrite add_nan_r. apply fold_add_from_nan.
  - now apply IH.
Qed.

Lemma totalWeight_nan (weights : IndicatorWeights) (name : string) :
  In (name, nan) weights -> totalWeight weights = nan.
Proof.
  intros Hin. unfold totalWeight, Object_values. apply fold_add_nan.
  apply in_map_iff. now exists (name, nan).
Qed.

Lemma ge_nan (a b : float) : a = nan \/ b = nan -> ge a b = false.
Proof.
  unfold ge. intros [-> | ->]; [apply leb_nan_r | apply leb_nan_l].
Qed.

(** X2.  A value that is not a number switches its rule off: with a [NaN]
    among the weights the sum is [NaN] and no weight-sum error is reported,
    whatever the other weights are; with [NaN] as one bound of a pair the
    error of the pair is not reported. *)
Theorem validateConfig_nan_passes
        (config : Config) (t : Trading)
        (ta : TaParams) (weights : IndicatorWeights) :
  trading config = Some t ->
  ta_params t = Some ta ->
  indicator_weights t = Some weights ->
  exists v,
    validateConfig config = Normal v
    /\ ((exists name, In (name, nan) weights) ->
        totalWeight weights = nan
        /\ ~ In (weight_error weights) (errors v))
    /\ (rsi_oversold ta = nan \/ rsi_overbought ta = nan ->
        ~ In rsi_error (errors v))
    /\ (sma_short ta = nan \/ sma_long ta = nan ->
        ~ In sma_error (errors v))
    /\ (ema_short ta = nan \/ ema_long ta = nan ->
        ~ In ema_error (errors v)).
Proof.
  intros Ht Hta Hw.
  rewrite (validateConfig_trading config t ta weights Ht Hta Hw).
  eexists. split; [reflexivity | ]. cbn [errors].
  destruct (trading_errors_members ta weights)
    as [Hrsi [Hsma [Hema [Hweight _]]]].
  split; [ | split; [ | split]].
  - intros [name Hin]. pose proof (totalWeight_nan _ _ Hin) as Hnan.
    split; [exact Hnan | ].
    rewrite Hweight, Hnan. unfold gt. now rewrite ltb_nan_r.
  - intros H. rewrite Hrsi, (ge_nan _ _ H). discriminate.
  - intros H. rewrite Hsma, (ge_nan _ _ H). discriminate.
  - intros H. rewrite Hema, (ge_nan _ _ H). discriminate.
Qed.

Lemma validateConfig_nan_passes_sample :
  exists v,
    validateConfig (config_with sample_ta nan_weights) = Normal v
    /\ ((exists name, In (name, nan) nan_weights) ->
        totalWeight nan_weights = nan
        /\ ~ In (weight_error nan_weights) (errors v))
    /\ (rsi_oversold sample_ta = nan \/ rsi_overbought sample_ta = nan ->
        ~ In rsi_error (errors v))
    /\ (sma_short sample_ta = nan \/ sma_long sample_ta = nan ->
        ~ In sma_error (errors v))
    /\ (ema_short sample_ta = nan \/ ema_long sample_ta = nan ->
        ~ In ema_error (errors v)).
Proof.
  apply (validateConfig_nan_passes
           (config_with sample_ta nan_weights) _
           sample_ta nan_weights eq_refl eq_refl eq_refl).
Defined.

(** Weights 0.5, NaN, 0.9, 0.2, 0.1 and 0.1 pass validation. *)
Example nan_weights_valid :
  validateConfig (config_with sample_ta nan_weights)
  = Normal {| valid := true; errors := [] |}.
Proof. vm_compute. reflexivity. Qed.

(** ** More on saveSettings *)

Lemma filter_no_keys (l : list (string * string)) :
  filter (fun kv => negb (key_in (fst kv) [])) l = l.
Proof.
  induction l as [ | kv l IH]; [reflexivity | ].
  cbn [filter]. unfold key_in at 1. cbn [existsb negb]. now rewrite IH.
Qed.

Section SaveProperties.

Variable parseInt : option string -> number.
Variable parseFloat : option string -> number.

Local Notation "'collect'" := (collectFormData parseInt parseFloat).
Local Notation "'save'" := (saveSettings parseInt parseFloat).
Local Notation "'saved'" := (saved_page parseInt parseFloat).

(** The collected configuration has its [trading] section and both parts
    of it, so its validation returns. *)
Lemma validateConfig_collected (f : Form) :
  exists ta weights,
    validateConfig (collect f)
    = Normal {| valid := (List.length (trading_errors ta weights) =? 0)%nat;
                errors := trading_errors ta weights |}.
Proof.
  do 2 eexists.
  apply (validateConfig_trading (collect f) _ _ _ eq_refl eq_refl eq_refl).
Qed.

(** X3.  Validation of the collected form never throws.  So the toast of
    the [catch] handler is shown only after the request went out and came
    to nothing: the fetch was rejected or the body could not be read. *)
Theorem saveSettings_catch_only_after_request
        (p : Page) (reply : FetchReply) :
  In (showError "Erro ao salvar configurações") (snd (save p reply)) ->
  (exists v, validateConfig (collect (form p)) = Normal v /\ valid v = true)
  /\ existsb is_fetch (snd (save p reply)) = true
  /\ (reply = NetworkFailure \/ reply = InvalidBody).
Proof.
  unfold saveSettings, save_try.
  destruct (validateConfig_collected (form p)) as [ta [weights ->]].
  cbn [valid errors].
  destruct (List.length (trading_errors ta weights) =? 0)%nat eqn:Hvalid;
    cbn [negb].
  - destruct reply as [ | | data].
    + intros _. split; [ | split; [reflexivity | now left]].
      eexists. split; reflexivity.
    + intros _. split; [ | split; [reflexivity | now right]].
      eexists. split; reflexivity.
    + destruct (is_success data); cbn; intros H;
        repeat destruct H as [H | H]; try discriminate; contradiction.
  - cbn. intros H.
    repeat destruct H as [H | H]; try discriminate; contradiction.
Qed.

(** X4.  On a document without the sliders every collected number is
    [NaN] (as [parseInt(null)] and [parseFloat(null)] are), no rule is
    broken, and the configuration is sent. *)
Theorem saveSettings_without_sliders (p : Page) (reply : FetchReply) :
  parseInt None = nan ->
  parseFloat None = nan ->
  (forall sliderId, slider_value (form p) sliderId = None) ->
  validateConfig (collect (form p)) = Normal {| valid := true; errors := [] |}
  /\ existsb is_fetch (snd (save p reply)) = true
  /\ (exists t w,
        trading (collect (form p)) = Some t
        /\ indicator_weights t = Some w
        /\ totalWeight w = nan).
Proof.
  intros Hint Hfloat Hnone.
  assert (Hvalid : validateConfig (collect (form p))
                   = Normal {| valid := true; errors := [] |}).
  { unfold collectFormData, getSliderValue.
    rewrite !Hnone, !Hint, !Hfloat. reflexivity. }
  split; [exact Hvalid | ]. split.
  - unfold saveSettings, save_try. rewrite Hvalid. cbn [valid negb].
    destruct reply as [ | | data]; try reflexivity.
    destruct (is_success data); reflexivity.
  - do 2 eexists. split; [reflexivity | ]. split; [reflexivity | ].
    unfold getSliderValue. rewrite !Hnone, !Hfloat. reflexivity.
Qed.

(** X5.  A save that validates and is answered with success sends the
    collected configuration once, replaces the three sections of the
    saved configuration by the collected ones, keeps its other keys and
    clears the flag; saving again from there changes nothing more. *)
Theorem saveSettings_success (p : Page) (data : ResponseData)
        (v : Validation) :
  validateConfig (collect (form p)) = Normal v ->
  valid v = true ->
  is_success data = true ->
  save p (Replied data)
  = (saved p,
     [ showLoading "Salvando configurações...";
       Fetch "/settings/api/save-config" "POST"
         {| request_config := collect (form p);
            apply_immediately := true |};
       UpdateSaveButton false;
       UpdateConfigPreview (collect (form p));
       showSuccess "Configurações salvas e aplicadas com sucesso!";
       hideLoading ])
  /\ unsavedChanges (manager (saved p)) = false
  /\ trading (currentConfig (manager (saved p))) = trading (collect (form p))
  /\ streaming (currentConfig (manager (saved p)))
     = streaming (collect (form p))
  /\ system (currentConfig (manager (saved p))) = system (collect (form p))
  /\ other_keys (currentConfig (manager (saved p)))
     = other_keys (currentConfig (manager p))
  /\ fst (save (saved p) (Replied data)) = saved p.
Proof.
  intros Hv Hvalid Hs.
  assert (Hkeys : forall c : Config,
            other_keys (spread c (collect (form p))) = other_keys c).
  { intros c. unfold spread. cbn [other_keys collectFormData].
    rewrite app_nil_r. apply filter_no_keys. }
  assert (Hsave : forall q, form q = form p ->
            save q (Replied data)
            = (saved q,
               [ showLoading "Salvando configurações...";
                 Fetch "/settings/api/save-config" "POST"
                   {| request_config := collect (form p);
                      apply_immediately := true |};
                 UpdateSaveButton false;
                 UpdateConfigPreview (collect (form p));
                 showSuccess "Configurações salvas e aplicadas com sucesso!";
                 hideLoading ])).
  { intros q Hq. unfold saveSettings, save_try, saved_page.
    rewrite Hq, Hv, Hvalid, Hs. reflexivity. }
  split; [now apply Hsave | ].
  split; [reflexivity | ].
  split; [reflexivity | ].
  split; [reflexivity | ].
  split; [reflexivity | ].
  split; [apply Hkeys | ].
  rewrite (Hsave (saved p) eq_refl). cbn [fst].
  unfold saved_page. cbn [manager form currentConfig].
  f_equal. f_equal.
  set (c := currentConfig (manager p)).
  set (new := collect (form p)).
  assert (Hnew : other_keys (spread (spread c new) new) = other_keys c).
  { unfold new. now rewrite !Hkeys. }
  assert (Hold : other_keys (spread c new) = other_keys c).
  { unfold new. now rewrite Hkeys. }
  destruct (spread (spread c new) new) as [t1 s1 y1 k1] eqn:E1.
  destruct (spread c new) as [t2 s2 y2 k2] eqn:E2.
  cbn [other_keys] in Hnew, Hold. subst k1 k2.
  unfold spread in E1, E2. unfold new in E1, E2.
  cbn [trading streaming system collectFormData override] in E1, E2.
  congruence.
Qed.

End SaveProperties.

Lemma saveSettings_catch_only_after_request_sample :
  (exists v,
     validateConfig
       (collectFormData decimal_parseInt decimal_parseFloat
                        (form sample_page)) = Normal v
     /\ valid v = true)
  /\ existsb is_fetch
       (snd (saveSettings decimal_parseInt decimal_parseFloat
                          sample_page NetworkFailure)) = true
  /\ (NetworkFailure = NetworkFailure \/ NetworkFailure = InvalidBody).
Proof.
  apply (saveSettings_catch_only_after_request
           decimal_parseInt decimal_parseFloat sample_page NetworkFailure).
  vm_compute. do 3 right. left. reflexivity.
Defined.

Lemma saveSettings_without_sliders_sample :
  validateConfig
    (collectFormData decimal_parseInt decimal_parseFloat (form empty_page))
  = Normal {| valid := true; errors := [] |}
  /\ existsb is_fetch
       (snd (saveSettings decimal_parseInt decimal_parseFloat
                          empty_page success_reply)) = true
  /\ (exists t w,
        trading (collectFormData decimal_parseInt decimal_parseFloat
                                 (form empty_page)) = Some t
        /\ indicator_weights t = Some w
        /\ totalWeight w = nan).
Proof.
  apply (saveSettings_without_sliders
           decimal_parseInt decimal_parseFloat empty_page success_reply).
  - reflexivity.
  - reflexivity.
  - intros sliderId. reflexivity.
Defined.

Lemma saveSettings_success_sample :
  saveSettings decimal_parseInt decimal_parseFloat sample_page
    (Replied {| status := Some "success"; message := Some "ok" |})
  = (saved_page decimal_parseInt decimal_parseFloat sample_page,
     [ showLoading "Salvando configurações...";
       Fetch "/settings/api/save-config" "POST"
         {| request_config :=
              collectFormData decimal_parseInt decimal_parseFloat
                              (form sample_page);
            apply_immediately := true |};
       UpdateSaveButton false;
       UpdateConfigPreview
         (collectFormData decimal_parseInt decimal_parseFloat
                          (form sample_page));
       showSuccess "Configurações salvas e aplicadas com sucesso!";
       hideLoading ])
  /\ unsavedChanges
       (manager (saved_page decimal_parseInt decimal_parseFloat sample_page))
     = false
  /\ trading
       (currentConfig
          (manager (saved_page decimal_parseInt decimal_parseFloat
                               sample_page)))
     = trading (collectFormData decimal_parseInt decimal_parseFloat
                                (form sample_page))
  /\ streaming
       (currentConfig
          (manager (saved_page decimal_parseInt decimal_parseFloat
                               sample_page)))
     = streaming (collectFormData decimal_parseInt decimal_parseFloat
                                  (form sample_page))
  /\ system
       (currentConfig
          (manager (saved_page decimal_parseInt decimal_parseFloat
                               sample_page)))
     = system (collectFormData decimal_parseInt decimal_parseFloat
                               (form sample_page))
  /\ other_keys
       (currentConfig
          (manager (saved_page decimal_parseInt decimal_parseFloat
                               sample_page)))
     = other_keys (currentConfig (manager sample_page))
  /\ fst (saveSettings decimal_parseInt decimal_parseFloat
            (saved_page decimal_parseInt decimal_parseFloat sample_page)
            (Replied {| status := Some "success"; message := Some "ok" |}))
     = saved_page decimal_parseInt decimal_parseFloat sample_page.
Proof.
  apply (saveSettings_success
           decimal_parseInt decimal_parseFloat sample_page
           {| status := Some "success"; message := Some "ok" |}
           {| valid := true; errors := [] |}).
  - vm_compute. reflexivity.
  - reflexivity.
  - reflexivity.
Defined.

(** ** The total of the weights and the system actions *)

Section ControlsProperties.

Variable parseInt : option string -> number.
Variable parseFloat : option string -> number.

Local Notation "'collect'" := (collectFormData parseInt parseFloat).

(** With the six weight sliders in the document, the total shown is the
    sum that [validateConfig] makes of the collected weights. *)
Lemma slider_total_collected (f : Form) :
  forallb (slider_present f) weight_sliders = true ->
  exists t ta w,
    trading (collect f) = Some t
    /\ ta_params t = Some ta
    /\ indicator_weights t = Some w
    /\ slider_total parseFloat f = totalWeight w.
Proof.
  intros Hpresent. do 3 eexists.
  split; [reflexivity | ]. split; [reflexivity | ]. split; [reflexivity | ].
  unfold slider_total, totalWeight, Object_values, weight_sliders,
    getSliderValue.
  cbn [forallb weight_sliders] in Hpresent. unfold slider_present in Hpresent.
  cbn [fold_left map snd].
  destruct (slider_value f "weight-rsi"); [ | discriminate].
  destruct (slider_value f "weight-macd"); [ | discriminate].
  destruct (slider_value f "weight-bb"); [ | discriminate].
  destruct (slider_value f "weight-stoch"); [ | discriminate].
  destruct (slider_value f "weight-sma"); [ | discriminate].
  destruct (slider_value f "weight-volume"); [ | discriminate].
  reflexivity.
Qed.

(** X6.  With the six weight sliders in the document, [updateTotalWeight]
    shows the percentage that the weight-sum message of [validateConfig]
    would carry; when it paints the total as a success, validation of the
    collected form reports no weight-sum error, and when validation reports
    one the total is painted as a warning or a danger. *)
Theorem updateTotalWeight_agrees_with_validateConfig
        (f : Form) (shown : TotalDisplay) :
  forallb (slider_present f) weight_sliders = true ->
  exists t w v display,
    trading (collect f) = Some t
    /\ indicator_weights t = Some w
    /\ validateConfig (collect f) = Normal v
    /\ updateTotalWeight parseFloat f (Some shown) = Some display
    /\ total_textContent display = weight_percent w ++ "%"
    /\ (total_className display = "text-success" ->
        ~ In (weight_error w) (errors v))
    /\ (In (weight_error w) (errors v) ->
        total_className display = "text-warning"
        \/ total_className display = "text-danger").
Proof.
  intros Hpresent.
  destruct (slider_total_collected f Hpresent)
    as [t [ta [w [Ht [Hta [Hw Htotal]]]]]].
  exists t, w. do 2 eexists.
  split; [exact Ht | ]. split; [exact Hw | ].
  split; [apply (validateConfig_trading _ t ta w Ht Hta Hw) | ].
  split; [reflexivity | ].
  cbn [total_textContent total_className errors]. rewrite Htotal.
  split; [reflexivity | ].
  destruct (trading_errors_members ta w) as [_ [_ [_ [Hweight _]]]].
  rewrite Hweight. unfold gt, less.
  destruct (Math_abs (totalWeight w - 1.0) <? 0.01)%float eqn:Hsmall.
  - rewrite (ltb_true_ltb_false _ _ Hsmall).
    split; [discriminate | discriminate].
  - split; [ | intros _ ].
    + destruct (Math_abs (totalWeight w - 1.0) <? 0.05)%float; discriminate.
    + destruct (Math_abs (totalWeight w - 1.0) <? 0.05)%float;
        [now left | now right].
Qed.

Lemma click_keeps_nothing_pending (f : Form) (c : Confirmation)
      (b : Button) (reply : FetchReply) :
  pendingAction c = None ->
  pendingAction (fst (click parseInt f c b reply)) = None
  /\ existsb is_action_request (snd (click parseInt f c b reply)) = false.
Proof.
  intros Hnone.
  destruct b; cbn [click executeSystemAction truthy String.eqb negb
                     cleanupData showConfirmDialog fst snd pendingAction
                     existsb is_action_request orb];
    try (split; [exact Hnone | reflexivity]).
  unfold executeConfirmedAction. rewrite Hnone. cbn [truthy fst snd].
  split; [exact Hnone | ]. destruct (modal_instance c); reflexivity.
Qed.

Lemma clicks_keep_nothing_pending (f : Form)
      (bs : list (Button * FetchReply)) (c : Confirmation) :
  pendingAction c = None ->
  pendingAction (fst (clicks parseInt f c bs)) = None
  /\ existsb is_action_request (snd (clicks parseInt f c bs)) = false.
Proof.
  revert c. induction bs as [ | [b reply] bs IH]; intros c Hnone.
  - split; [exact Hnone | reflexivity].
  - cbn [clicks].
    destruct (click_keeps_nothing_pending f c b reply Hnone) as [H1 H2].
    destruct (click parseInt f c b reply) as [c1 done1].
    cbn [fst snd] in H1, H2.
    destruct (IH c1 H1) as [H3 H4].
    destruct (clicks parseInt f c1 bs) as [c2 done2].
    cbn [fst snd] in *. split; [exact H3 | ].
    now rewrite existsb_app, H2, H4.
Qed.

(** X7.  The callback given to [showConfirmDialog] is stored and never
    called, so no action is ever pending: whatever buttons are clicked, in
    whatever order, after the page was set up, the confirm button finds
    nothing to perform and no request for a system action is sent. *)
Theorem confirmed_actions_are_never_sent
        (f : Form) (message : option string)
        (bs : list (Button * FetchReply)) :
  pendingAction (fst (clicks parseInt f (new_confirmation message) bs)) = None
  /\ existsb is_action_request
       (snd (clicks parseInt f (new_confirmation message) bs)) = false.
Proof. now apply clicks_keep_nothing_pending. Qed.

End ControlsProperties.

Lemma updateTotalWeight_agrees_with_validateConfig_sample :
  exists t w v display,
    trading (collectFormData decimal_parseInt decimal_parseFloat sample_form)
    = Some t
    /\ indicator_weights t = Some w
    /\ validateConfig
         (collectFormData decimal_parseInt decimal_parseFloat sample_form)
       = Normal v
    /\ updateTotalWeight decimal_parseFloat sample_form
         (Some sample_total_display) = Some display
    /\ total_textContent display = weight_percent w ++ "%"
    /\ (total_className display = "text-success" ->
        ~ In (weight_error w) (errors v))
    /\ (In (weight_error w) (errors v) ->
        total_className display = "text-warning"
        \/ total_className display = "text-danger").
Proof.
  apply (updateTotalWeight_agrees_with_validateConfig
           decimal_parseInt decimal_parseFloat
           sample_form sample_total_display).
  reflexivity.
Defined.

(** Every action button followed by the confirm button: the dialog is
    shown and hidden, and that is all. *)
Example sample_clicks_send_nothing :
  snd (clicks decimal_parseInt sample_form (new_confirmation (Some EmptyString))
              sample_clicks)
  = [ ModalShow; ModalHide; ModalShow; ModalHide; ModalShow; ModalHide;
      ModalShow; ModalShow; ModalHide ].
Proof. vm_compute. reflexivity. Qed.

(** ** Duplicates in the incoming list *)

Lemma strict_equal_sym (a b : SignalId) : strict_equal a b = strict_equal b a.
Proof.
  destruct (strict_equal a b) eqn:E.
  - apply strict_equal_eq in E. subst. symmetry. apply strict_equal_refl.
  - destruct (strict_equal b a) eqn:E'; [ | reflexivity].
    apply strict_equal_eq in E'. subst.
    now rewrite strict_equal_refl in E.
Qed.

(** The ids that [checkForDuplicateSignals] finds in its [Set] are those of
    the signals that [removeDuplicateSignals] drops. *)
Lemma duplicate_ids_first_occurrences
      (l : list Signal) (uniqueIds : list SignalId) (pre : list Signal) :
  (forall x, existsb (strict_equal (id x)) uniqueIds
             = existsb (same_id x) pre) ->
  (List.length (duplicate_ids uniqueIds l)
   + List.length (first_occurrences pre l))%nat
  = List.length l.
Proof.
  revert uniqueIds pre. induction l as [ | s l IH]; intros uniqueIds pre Hseen.
  - reflexivity.
  - cbn [duplicate_ids first_occurrences]. rewrite <- (Hseen s).
    destruct (existsb (strict_equal (id s)) uniqueIds) eqn:Hs.
    + assert (Hnext : forall x,
                existsb (strict_equal (id x)) uniqueIds
                = existsb (same_id x) (pre ++ [s])).
      { intros x. rewrite existsb_app, <- Hseen. cbn [existsb].
        rewrite orb_false_r.
        destruct (same_id x s) eqn:Hxs; [ | now rewrite orb_false_r].
        apply same_id_eq in Hxs. rewrite orb_true_r, <- Hxs. exact Hs. }
      pose proof (IH uniqueIds (pre ++ [s])%list Hnext) as Hlen.
      cbn [List.length]. lia.
    + assert (Hnext : forall x,
                existsb (strict_equal (id x)) (id s :: uniqueIds)
                = existsb (same_id x) (pre ++ [s])).
      { intros x. rewrite existsb_app, <- Hseen. cbn [existsb].
        rewrite orb_false_r. unfold same_id.
        rewrite (strict_equal_sym (id x) (id s)). apply orb_comm. }
      pose proof (IH (id s :: uniqueIds) (pre ++ [s])%list Hnext) as Hlen.
      cbn [List.length]. lia.
Qed.

Lemma duplicate_ids_length (signals : list Signal) :
  (List.length (duplicate_ids [] signals)
   + List.length (removeDuplicateSignals signals))%nat
  = List.length signals.
Proof.
  rewrite removeDuplicateSignals_first_occurrences.
  apply duplicate_ids_first_occurrences. reflexivity.
Qed.

(** X8.  [checkForDuplicateSignals] counts exactly the entries that
    [removeDuplicateSignals] drops from the table: while the alert was
    not yet shown, it does nothing when nothing is dropped, and otherwise
    logs that count and sets the flag. *)
Theorem checkForDuplicateSignals_counts_dropped (signals : list Signal) :
  let dropped :=
    (List.length signals
     - List.length (removeDuplicateSignals signals))%nat in
  List.length (duplicate_ids [] signals) = dropped
  /\ (forall d,
        duplicateAlertShown d = false ->
        (dropped = 0%nat -> checkForDuplicateSignals d signals = d)
        /\ ((0 < dropped)%nat ->
            console (checkForDuplicateSignals d signals)
            = app (console d) [duplicate_warning dropped]
            /\ duplicateAlertShown (checkForDuplicateSignals d signals)
               = true)).
Proof.
  intros dropped.
  assert (Hlen : List.length (duplicate_ids [] signals) = dropped).
  { unfold dropped. pose proof (duplicate_ids_length signals). lia. }
  split; [exact Hlen | ].
  intros d Hflag. unfold checkForDuplicateSignals.
  rewrite Hlen, Hflag. cbn [negb]. rewrite andb_true_r. split.
  - intros ->. reflexivity.
  - intros Hpos. destruct (Nat.ltb_spec 0 dropped) as [_ | Hle]; [ | lia].
    split; reflexivity.
Qed.

(** ** The duplicate warning over the polling cycles *)

Lemma substring_all (s : string) : substring 0 (String.length s) s = s.
Proof. induction s as [ | c s IH]; simpl; [reflexivity | now rewrite IH]. Qed.

Lemma substring_skip (a b : string) :
  substring (String.length a) (String.length b) (a ++ b) = b.
Proof.
  induction a as [ | c a IH]; simpl; [apply substring_all | exact IH].
Qed.

Lemma length_append (a b : string) :
  String.length (a ++ b) = (String.length a + String.length b)%nat.
Proof. induction a as [ | c a IH]; simpl; [reflexivity | now rewrite IH]. Qed.

Lemma ends_with_append (a b : string) : ends_with (a ++ b) b = true.
Proof.
  unfold ends_with. rewrite length_append, Nat.add_sub, substring_skip.
  apply String.eqb_refl.
Qed.

Lemma duplicate_warning_recognised (n : nat) :
  is_duplicate_warning (duplicate_warning n) = true.
Proof.
  unfold is_duplicate_warning, duplicate_warning.
  change ("[DASHBOARD] " ++ decimal_of_Z (Z.of_nat n)
            ++ " sinais duplicados detectados")
    with (("[DASHBOARD] " ++ decimal_of_Z (Z.of_nat n))
            ++ " sinais duplicados detectados").
  apply ends_with_append.
Qed.

Lemma warned_once_same_log (d d' : Dashboard) :
  console d' = console d ->
  duplicateAlertShown d' = duplicateAlertShown d ->
  warned_once d -> warned_once d'.
Proof.
  unfold warned_once, duplicate_warnings. intros -> ->. trivial.
Qed.

Lemma warned_once_console_write (d : Dashboard) (line : string) :
  is_duplicate_warning line = false ->
  warned_once d -> warned_once (console_write d line).
Proof.
  unfold warned_once, duplicate_warnings, console_write.
  cbn [console duplicateAlertShown]. intros Hline.
  rewrite filter_app. cbn [filter]. rewrite Hline, app_nil_r. trivial.
Qed.

Lemma warned_once_checkForDuplicateSignals
      (d : Dashboard) (signals : list Signal) :
  warned_once d -> warned_once (checkForDuplicateSignals d signals).
Proof.
  intros H. unfold checkForDuplicateSignals.
  destruct ((0 <? List.length (duplicate_ids [] signals))%nat
            && negb (duplicateAlertShown d)) eqn:Hwarn; [ | exact H].
  apply andb_true_iff in Hwarn as [_ Hflag].
  apply negb_true_iff in Hflag.
  destruct H as [_ Hnone]. specialize (Hnone Hflag).
  unfold warned_once, duplicate_warnings in *.
  cbn [with_duplicateAlertShown console_write console duplicateAlertShown].
  rewrite filter_app, length_app, Hnone. cbn [filter].
  split; [ | discriminate].
  destruct (is_duplicate_warning _); cbn [List.length]; lia.
Qed.

Lemma warned_once_checkSignalMonitorStatus
      (d : Dashboard) (monitorStatus : option MonitorStatus) (now : Z) :
  warned_once d -> warned_once (checkSignalMonitorStatus d monitorStatus now).
Proof.
  intros H. unfold checkSignalMonitorStatus.
  destruct monitorStatus as [m | ]; [ | exact H].
  destruct (signalCheckInterval d <? now - lastSignalMonitorCheck d);
    [ | exact H].
  assert (H' : warned_once (with_lastSignalMonitorCheck d now))
    by (revert H; apply warned_once_same_log; reflexivity).
  destruct (negb (is_running m)); [ | exact H'].
  now apply warned_once_console_write.
Qed.

Lemma warned_once_updateSignalsTable
      (d : Dashboard) (reply : SignalsReply) (now : Z) :
  warned_once d -> warned_once (updateSignalsTable d reply now).
Proof.
  intros H.
  assert (Herror : forall d0,
            warned_once d0 ->
            warned_once
              (showSignalsError
                 (console_write d0
                    "[DASHBOARD] Erro ao atualizar tabela de sinais:"))).
  { intros d0 H0.
    apply (warned_once_console_write d0
             "[DASHBOARD] Erro ao atualizar tabela de sinais:" eq_refl) in H0.
    revert H0. apply warned_once_same_log;
      unfold showSignalsError;
      destruct (signals_table_body (console_write d0 _)); reflexivity. }
  unfold updateSignalsTable, signals_try.
  destruct reply as [ | code | | success data]; try (now apply Herror).
  destruct success; cbn [negb]; [ | now apply Herror].
  destruct data as [data | ]; [ | now apply Herror].
  set (signals := match active_signals data with
                  | Some signals => signals
                  | None => []
                  end).
  pose proof (warned_once_checkForDuplicateSignals d signals H) as H1.
  set (d1 := checkForDuplicateSignals d signals) in *.
  assert (H2 : warned_once
                 (if signalMonitorEnabled d1
                  then checkSignalMonitorStatus d1 (monitor_status data) now
                  else d1)).
  { destruct (signalMonitorEnabled d1);
      [now apply warned_once_checkSignalMonitorStatus | exact H1]. }
  revert H2. apply warned_once_same_log.
  - unfold updateMonitorInfo, updateSignalsCounts, displaySignalsTable.
    cbn [console]. destruct (signals_table_body _); [ | reflexivity].
    destruct (List.length signals =? 0)%nat; reflexivity.
  - unfold updateMonitorInfo, updateSignalsCounts, displaySignalsTable.
    cbn [duplicateAlertShown].
    destruct (signals_table_body _); [ | reflexivity].
    destruct (List.length signals =? 0)%nat; reflexivity.
Qed.

Lemma warned_once_poll_cycles
      (polls : list (SignalsReply * Z)) (d : Dashboard) :
  warned_once d -> warned_once (poll_cycles d polls).
Proof.
  revert d. induction polls as [ | poll polls IH]; intros d H; [exact H | ].
  cbn [poll_cycles fold_left]. apply IH.
  now apply warned_once_updateSignalsTable.
Qed.

(** X9.  However many polling cycles run on a new dashboard, and whatever
    they receive, the console holds at most one warning of duplicated
    signals: after the first one the flag stays set and later duplicates
    are not reported. *)
Theorem duplicate_warning_at_most_once
        (doc : Dashboard) (polls : list (SignalsReply * Z)) :
  (duplicate_warnings (poll_cycles (new_dashboard doc) polls) <= 1)%nat
  /\ (duplicateAlertShown (poll_cycles (new_dashboard doc) polls) = false ->
      duplicate_warnings (poll_cycles (new_dashboard doc) polls) = 0%nat)
  /\ (forall n, is_duplicate_warning (duplicate_warning n) = true).
Proof.
  assert (H : warned_once (poll_cycles (new_dashboard doc) polls)).
  { apply warned_once_poll_cycles. split; [ | reflexivity].
    unfold duplicate_warnings. cbn. lia. }
  destruct H as [H1 H2].
  split; [exact H1 | ]. split; [exact H2 | ].
  apply duplicate_warning_recognised.
Qed.

(** Duplicates, a failure and duplicates again: one warning. *)
Example sample_polls_warn_once :
  console (poll_cycles (new_dashboard sample_dashboard) sample_polls)
  = [ duplicate_warning 1;
      "[DASHBOARD] Erro ao atualizar tabela de sinais:" ].
Proof. vm_compute. reflexivity. Qed.

(** ** A polling cycle that goes well *)

Lemma removeDuplicateSignals_length (signals : list Signal) :
  (List.length (removeDuplicateSignals signals) <= List.length signals)%nat.
Proof. pose proof (duplicate_ids_length signals). lia. Qed.

Lemma table_body_before_display
      (d : Dashboard) (signals : list Signal)
      (monitorStatus : option MonitorStatus) (now : Z) :
  let d1 := checkForDuplicateSignals d signals in
  signals_table_body
    (if signalMonitorEnabled d1
     then checkSignalMonitorStatus d1 monitorStatus now
     else d1)
  = signals_table_body d.
Proof.
  intros d1.
  assert (H1 : signals_table_body d1 = signals_table_body d).
  { unfold d1, checkForDuplicateSignals.
    destruct ((0 <? List.length (duplicate_ids [] signals))%nat
              && negb (duplicateAlertShown d)); reflexivity. }
  destruct (signalMonitorEnabled d1); [ | exact H1].
  rewrite <- H1. unfold checkSignalMonitorStatus.
  destruct monitorStatus as [m | ]; [ | reflexivity].
  destruct (signalCheckInterval d1 <? now - lastSignalMonitorCheck d1);
    [ | reflexivity].
  destruct (negb (is_running m)); reflexivity.
Qed.

(** X10.  A cycle that receives the signals draws them over whatever the
    table body held, the error notice of a failed cycle included: the
    notice for an empty list, and otherwise the rows, never more than 20
    and never more than the total counter, which counts the incoming list
    with its duplicates. *)
Theorem updateSignalsTable_success_redraws
        (d : Dashboard) (body : TableBody) (data : DashboardData) (now : Z) :
  signals_table_body d = Some body ->
  let signals := signals_of data in
  let d' := updateSignalsTable d (SignalsResult true (Some data)) now in
  signals_table_body d'
  = Some (if (List.length signals =? 0)%nat then NoSignalsNotice
          else Rows (reconcileSignals signals))
  /\ total_signals_count d'
     = match total_signals_count d with
       | Some _ =>
           Some (decimal_of_Z (Z.of_nat (List.length signals)) ++ " Total")
       | None => None
       end
  /\ (List.length (reconcileSignals signals) <= 20)%nat
  /\ (List.length (reconcileSignals signals) <= List.length signals)%nat.
Proof.
  intros Hbody signals d'.
  split; [ | split; [ | split]].
  - unfold d', updateSignalsTable, signals_try. cbn [negb].
    fold (signals_of data). fold signals.
    unfold updateMonitorInfo, updateSignalsCounts.
    cbn [signals_table_body]. unfold displaySignalsTable.
    rewrite (table_body_before_display d signals (monitor_status data) now).
    rewrite Hbody.
    destruct (List.length signals =? 0)%nat; reflexivity.
  - unfold d', updateSignalsTable, signals_try. cbn [negb].
    fold (signals_of data). fold signals.
    unfold updateMonitorInfo, updateSignalsCounts.
    cbn [total_signals_count].
    assert (Hcount : forall d0,
              total_signals_count (displaySignalsTable d0 signals)
              = total_signals_count d0).
    { intros d0. unfold displaySignalsTable.
      destruct (signals_table_body d0); [ | reflexivity].
      destruct (List.length signals =? 0)%nat; reflexivity. }
    rewrite Hcount.
    assert (Hsame : total_signals_count
                      (if signalMonitorEnabled
                            (checkForDuplicateSignals d signals)
                       then checkSignalMonitorStatus
                              (checkForDuplicateSignals d signals)
                              (monitor_status data) now
                       else checkForDuplicateSignals d signals)
                    = total_signals_count d).
    { assert (H1 : total_signals_count (checkForDuplicateSignals d signals)
                   = total_signals_count d).
      { unfold checkForDuplicateSignals.
        destruct ((0 <? List.length (duplicate_ids [] signals))%nat
                  && negb (duplicateAlertShown d)); reflexivity. }
      destruct (signalMonitorEnabled (checkForDuplicateSignals d signals));
        [ | exact H1].
      rewrite <- H1. unfold checkSignalMonitorStatus.
      destruct (monitor_status data) as [m | ]; [ | reflexivity].
      destruct (signalCheckInterval _ <? now - lastSignalMonitorCheck _);
        [ | reflexivity].
      destruct (negb (is_running m)); reflexivity. }
    rewrite Hsame. reflexivity.
  - rewrite reconcileSignals_length. apply Nat.le_min_l.
  - rewrite reconcileSignals_length.
    pose proof (removeDuplicateSignals_length signals). lia.
Qed.

Lemma updateSignalsTable_success_redraws_sample :
  let signals := signals_of sample_data in
  let d' :=
    updateSignalsTable
      (updateSignalsTable dashboard_after_good_poll SignalsFetchRejected 50000)
      (SignalsResult true (Some sample_data)) 60000 in
  signals_table_body d'
  = Some (if (List.length signals =? 0)%nat then NoSignalsNotice
          else Rows (reconcileSignals signals))
  /\ total_signals_count d'
     = match total_signals_count
               (updateSignalsTable dashboard_after_good_poll
                                   SignalsFetchRejected 50000) with
       | Some _ =>
           Some (decimal_of_Z (Z.of_nat (List.length signals)) ++ " Total")
       | None => None
       end
  /\ (List.length (reconcileSignals signals) <= 20)%nat
  /\ (List.length (reconcileSignals signals) <= List.length signals)%nat.
Proof.
  apply (updateSignalsTable_success_redraws
           (updateSignalsTable dashboard_after_good_poll
                               SignalsFetchRejected 50000)
           ErrorNotice sample_data 60000).
  reflexivity.
Defined.

(** The scenario list has three entries and two rows: the counter says 3. *)
Example scenario_counter_counts_duplicates :
  total_signals_count dashboard_after_good_poll = Some "3 Total"
  /\ signals_table_body dashboard_after_good_poll
     = Some (Rows [signal_2; signal_1]).
Proof. split; reflexivity. Qed.

(** ** The guard of updateAll *)

Lemma poller_invariant (events : list PollerEvent) (s : Poller) :
  (isUpdating s = true /\ running s = 1%nat)
  \/ (isUpdating s = false /\ running s = 0%nat) ->
  let s' := fold_left poller_step events s in
  (isUpdating s' = true /\ running s' = 1%nat)
  \/ (isUpdating s' = false /\ running s' = 0%nat).
Proof.
  revert s. induction events as [ | e events IH]; intros s H; [exact H | ].
  cbn [fold_left]. apply IH.
  destruct s as [flag n]. cbn [isUpdating running] in H.
  destruct H as [[-> ->] | [-> ->]]; destruct e; cbn; tauto.
Qed.

(** X11.  Whatever calls of [updateAll] and completions of their updates
    follow each other on a new dashboard, at most one call is past the
    guard at any time; the flag is set exactly while one is, and a call
    made then returns at once without starting anything. *)
Theorem updateAll_at_most_one_running (events : list PollerEvent) :
  let s := fold_left poller_step events new_poller in
  (running s <= 1)%nat
  /\ (isUpdating s = true <-> running s = 1%nat)
  /\ (running s = 1%nat -> updateAll_call s = (s, false))
  /\ (running s = 0%nat ->
      snd (updateAll_call s) = true
      /\ running (fst (updateAll_call s)) = 1%nat).
Proof.
  intros s.
  assert (H : (isUpdating s = true /\ running s = 1%nat)
              \/ (isUpdating s = false /\ running s = 0%nat)).
  { apply poller_invariant. right. split; reflexivity. }
  unfold updateAll_call.
  destruct H as [[Hflag Hrun] | [Hflag Hrun]]; rewrite Hflag, Hrun;
    repeat split; try lia; try congruence; try discriminate.
Qed.

(** ** common.js: the progress of a signal *)

Lemma Math_min_bounds (a b : float) :
  is_nan a = false -> is_nan b = false ->
  (Common.Math_min a b = a \/ Common.Math_min a b = b)
  /\ (Common.Math_min a b <=? a)%float = true
  /\ (Common.Math_min a b <=? b)%float = true.
Proof.
  intros Ha Hb. unfold Common.Math_min. rewrite Ha, Hb. cbn [orb].
  destruct (a <? b)%float eqn:Hab.
  - split; [now left | ]. split; [now apply leb_refl | ].
    now apply ltb_true_leb_true.
  - destruct (b <? a)%float eqn:Hba.
    + split; [now right | ]. split; [now apply ltb_true_leb_true | ].
      now apply leb_refl.
    + destruct (not_ltb_leb a b Ha Hb Hab Hba) as [H1 H2].
      destruct (get_sign a).
      * split; [now left | ]. split; [now apply leb_refl | exact H1].
      * split; [now right | ]. split; [exact H2 | now apply leb_refl].
Qed.

Lemma Math_max_bounds (a b : float) :
  is_nan a = false -> is_nan b = false ->
  (Common.Math_max a b = a \/ Common.Math_max a b = b)
  /\ (a <=? Common.Math_max a b)%float = true
  /\ (b <=? Common.Math_max a b)%float = true.
Proof.
  intros Ha Hb. unfold Common.Math_max. rewrite Ha, Hb. cbn [orb].
  destruct (a <? b)%float eqn:Hab.
  - split; [now right | ]. split; [now apply ltb_true_leb_true | ].
    now apply leb_refl.
  - destruct (b <? a)%float eqn:Hba.
    + split; [now left | ]. split; [now apply leb_refl | ].
      now apply ltb_true_leb_true.
    + destruct (not_ltb_leb a b Ha Hb Hab Hba) as [H1 H2].
      destruct (get_sign a).
      * split; [now right | ]. split; [exact H1 | now apply leb_refl].
      * split; [now left | ]. split; [now apply leb_refl | exact H2].
Qed.

(** X12.  [calculateProgress] answers with a number from 0 to 100, or with
    [NaN]; it answers 0 when the signal or one of its three prices is
    missing or zero. *)
Theorem calculateProgress_range (signal : option Common.PricedSignal) :
  let progress := Common.calculateProgress signal in
  (progress = nan
   \/ ((0 <=? progress)%float = true /\ (progress <=? 100)%float = true))
  /\ (signal = None -> progress = 0%float)
  /\ (forall s,
        signal = Some s ->
        Common.falsy (Common.entry_price s) = true
        \/ Common.falsy (Common.target_price s) = true
        \/ Common.falsy (Common.current_price s) = true ->
        progress = 0%float).
Proof.
  intros progress. split; [ | split].
  - unfold progress, Common.calculateProgress.
    destruct signal as [s | ]; [ | right; split; reflexivity].
    destruct (Common.falsy (Common.entry_price s)
              || Common.falsy (Common.target_price s)
              || Common.falsy (Common.current_price s));
      [right; split; reflexivity | ].
    set (p := ((Common.current_price s - Common.entry_price s)
               / (Common.target_price s - Common.entry_price s) * 100)%float).
    destruct (is_nan p) eqn:Hp.
    + left. unfold Common.Math_min. rewrite Hp, orb_true_r. reflexivity.
    + right.
      destruct (Math_min_bounds 100%float p eq_refl Hp) as [Hm [Hle _]].
      assert (Hnan : is_nan (Common.Math_min 100%float p) = false)
        by (destruct Hm as [-> | ->]; [reflexivity | exact Hp]).
      destruct (Math_max_bounds 0%float (Common.Math_min 100%float p)
                                eq_refl Hnan)
        as [Hr [Hge _]].
      split; [exact Hge | ].
      destruct Hr as [-> | ->]; [reflexivity | exact Hle].
  - intros ->. reflexivity.
  - intros s -> H. unfold progress, Common.calculateProgress.
    destruct (Common.falsy (Common.entry_price s)),
             (Common.falsy (Common.target_price s)),
             (Common.falsy (Common.current_price s));
      try reflexivity.
    destruct H as [H | [H | H]]; discriminate.
Qed.

(** Half way to the target; past the target; entry, target and current
    price all equal. *)
Example calculateProgress_samples :
  Common.calculateProgress
    (Some {| Common.entry_price := 100; Common.target_price := 110;
             Common.current_price := 105 |}%float) = 50%float
  /\ Common.calculateProgress
       (Some {| Common.entry_price := 100; Common.target_price := 110;
                Common.current_price := 130 |}%float) = 100%float
  /\ Common.calculateProgress
       (Some {| Common.entry_price := 100; Common.target_price := 100;
                Common.current_price := 100 |}%float) = nan.
Proof. repeat split; reflexivity. Qed.

(** ** common.js: the time elapsed *)

(** X13.  For a valid time stamp [getTimeElapsed] shows the whole number of
    minutes, hours or days that passed, in the coarsest unit that is not
    zero: from 1 to 59 minutes, from 1 to 23 hours, or at least one day, and
    the word for now when less than a minute passed or the time stamp lies
    ahead. *)
Theorem getTimeElapsed_units (now time : Z) :
  let elapsed := now - time in
  let shown := Common.getTimeElapsed now (Some time) in
  (elapsed < 60000 /\ shown = "agora")
  \/ (exists n,
        1 <= n <= 59
        /\ n * 60000 <= elapsed < (n + 1) * 60000
        /\ shown = decimal_of_Z n ++ " min atrás")
  \/ (exists n,
        1 <= n <= 23
        /\ n * 3600000 <= elapsed < (n + 1) * 3600000
        /\ shown = decimal_of_Z n ++ "h atrás")
  \/ (exists n,
        1 <= n
        /\ n * 86400000 <= elapsed < (n + 1) * 86400000
        /\ shown = decimal_of_Z n ++ "d atrás").
Proof.
  intros elapsed shown. unfold shown, Common.getTimeElapsed.
  fold elapsed.
  pose proof (Z.div_mod elapsed 60000 ltac:(lia)) as Hm.
  pose proof (Z.mod_pos_bound elapsed 60000 ltac:(lia)) as Hmb.
  set (m := elapsed / 60000) in *.
  destruct (Z.ltb_spec m 1) as [H1 | H1]; [left; split; [lia | reflexivity] | ].
  destruct (Z.ltb_spec m 60) as [H60 | H60].
  { right; left. exists m. repeat split; try lia. }
  destruct (Z.ltb_spec m 1440) as [H1440 | H1440].
  - right; right; left. exists (m / 60).
    pose proof (Z.div_mod m 60 ltac:(lia)) as Hh.
    pose proof (Z.mod_pos_bound m 60 ltac:(lia)) as Hhb.
    repeat split; try lia.
  - right; right; right. exists (m / 1440).
    pose proof (Z.div_mod m 1440 ltac:(lia)) as Hd.
    pose proof (Z.mod_pos_bound m 1440 ltac:(lia)) as Hdb.
    repeat split; try lia.
Qed.

(** A time stamp that is not a date. *)
Example getTimeElapsed_invalid (now : Z) :
  Common.getTimeElapsed now None = "NaNd atrás".
Proof. reflexivity. Qed.

(** ** common.js: the validation helpers *)

Lemma not_ltb_leb_swap (a b : float) :
  is_nan a = false -> is_nan b = false ->
  (a <? b)%float = false -> (b <=? a)%float = true.
Proof.
  intros Ha Hb. apply is_nan_false in Ha, Hb.
  rewrite ltb_spec, leb_spec. unfold SFltb, SFleb.
  rewrite (SFcompare_swap (Prim2SF a) (Prim2SF b)).
  destruct (SFcompare_defined _ _ Ha Hb) as [c ->].
  destruct c; simpl; congruence.
Qed.

Lemma SFcompare_refl (s : spec_float) :
  s <> S754_nan -> SFcompare s s = Some Eq.
Proof.
  destruct s as [sign | sign | | sign m e]; simpl; intros H;
    try congruence; try (destruct sign; reflexivity).
  rewrite Z.compare_refl, Pos.compare_cont_refl.
  destruct sign; reflexivity.
Qed.

Lemma is_nan_true (a : float) : is_nan a = true -> Prim2SF a = S754_nan.
Proof.
  unfold is_nan. rewrite eqb_spec. unfold SFeqb. intros H.
  destruct (Prim2SF a) as [sign | sign | | sign m e] eqn:E;
    [ | | reflexivity | ];
    rewrite SFcompare_refl in H by discriminate; discriminate.
Qed.

Lemma leb_true_not_nan (a b : float) :
  (a <=? b)%float = true -> is_nan a = false /\ is_nan b = false.
Proof.
  rewrite leb_spec. unfold SFleb. intros H. split.
  - destruct (is_nan a) eqn:E; [ | reflexivity].
    apply is_nan_true in E. rewrite E in H. discriminate.
  - destruct (is_nan b) eqn:E; [ | reflexivity].
    apply is_nan_true in E. rewrite E, SFcompare_nan_r in H. discriminate.
Qed.

(** X14.  [validatePercentage] accepts exactly the values that parse to a
    number from 0 to 100, and [validatePrice] exactly those that parse to a
    number that is at least 0, infinity included; what parses to [NaN] is
    refused by both. *)
Theorem validatePercentage_accepts
        (parseFloat : option string -> number) (value : option string) :
  (validatePercentage parseFloat value = true
   <-> ((0 <=? parseFloat value)%float = true
        /\ (parseFloat value <=? 100)%float = true))
  /\ (validatePrice parseFloat value = true
      <-> (0 <=? parseFloat value)%float = true)
  /\ (parseFloat value = infinity -> validatePrice parseFloat value = true)
  /\ (parseFloat value = nan ->
      validatePrice parseFloat value = false
      /\ validatePercentage parseFloat value = false).
Proof.
  unfold validatePercentage, validatePrice, validateNumber, less.
  set (num := parseFloat value).
  split; [ | split; [ | split]].
  - split.
    + destruct (is_nan num) eqn:Hnan; [discriminate | ].
      destruct (num <? 0)%float eqn:Hlow; [discriminate | ].
      destruct (100 <? num)%float eqn:Hhigh; [discriminate | ].
      intros _. split.
      * now apply (not_ltb_leb_swap num 0%float Hnan eq_refl).
      * now apply (not_ltb_leb_swap 100%float num eq_refl Hnan).
    + intros [Hlow Hhigh].
      destruct (leb_true_not_nan _ _ Hlow) as [_ Hnan]. rewrite Hnan.
      rewrite (leb_true_ltb_false _ _ Hlow).
      rewrite (leb_true_ltb_false _ _ Hhigh). reflexivity.
  - split.
    + destruct (is_nan num) eqn:Hnan; [discriminate | ].
      destruct (num <? 0)%float eqn:Hlow; [discriminate | ].
      intros _. now apply (not_ltb_leb_swap num 0%float Hnan eq_refl).
    + intros Hlow.
      destruct (leb_true_not_nan _ _ Hlow) as [_ Hnan]. rewrite Hnan.
      rewrite (leb_true_ltb_false _ _ Hlow). reflexivity.
  - intros ->. reflexivity.
  - intros ->. split; reflexivity.
Qed.
